(** * Timing of database queries and transactions, and the Kafka producer bridge

    A shallow embedding of [app/commons/timing/database.py] and
    [app/commons/async_kafka_producer.py].  Python objects that are shared
    by reference (timers, exit stacks, the tracked transaction object,
    futures) live in stores indexed by [nat]; a call that may raise returns
    an [Outcome] next to the store it leaves behind. *)

From Stdlib Require Import ZArith Bool.
From Stdlib Require QArith Qminmax.
From stdpp Require Import base option list strings.

Open Scope string_scope.
Open Scope list_scope.

(** ** Python values the modules work on *)

Module Py.

(** A class, by its qualified name and the names of the classes that
    follow it in its [__mro__]. *)
Record PyClass := { cls_name : string; cls_bases : list string }.

Definition mro (c : PyClass) : list string := cls_name c :: cls_bases c.

Definition Traceback := list string.

(** An exception instance. *)
Record PyExc := {
  exc_class : PyClass;
  exc_message : string;
  exc_traceback : Traceback }.

(** [isinstance(value, classes)] for a value that is an exception or
    [None]: some class of the value's [__mro__] is one of [classes]. *)
Definition isinstance (value : option PyExc) (classes : list string) : bool :=
  match value with
  | None => false
  | Some e =>
      existsb (fun c => existsb (String.eqb c) classes) (mro (exc_class e))
  end.

(** Truth value of a [str]. *)
Definition truthy (s : string) : bool := negb (String.eqb s "").

(** [a or b] on strings. *)
Definition str_or (a b : string) : string := if truthy a then a else b.

(** [sys.exc_info()] inside an [except] block handling [e]. *)
Definition exc_info (e : PyExc)
  : option PyClass * option PyExc * option Traceback :=
  (Some (exc_class e), Some e, Some (exc_traceback e)).

Definition builtin_exception (name : string) : PyClass :=
  {| cls_name := name; cls_bases := ["Exception"; "BaseException"; "object"] |}.

Definition AttributeError (message : string) : PyExc :=
  {| exc_class := builtin_exception "AttributeError";
     exc_message := message; exc_traceback := [] |}.

Definition IndexError (message : string) : PyExc :=
  {| exc_class := {| cls_name := "IndexError";
                     cls_bases := ["LookupError"; "Exception";
                                   "BaseException"; "object"] |};
     exc_message := message; exc_traceback := [] |}.

(** The result of running a piece of Python: a value or a raised
    exception. *)
Inductive Outcome (A : Type) : Type :=
| Returned (a : A)
| Raised (e : PyExc).
Arguments Returned {A} a.
Arguments Raised {A} e.

End Py.
Export Py.

(** ** app/commons/timing/database.py *)

Module QueryStatus.
Definition success : string := "success".
Definition timeout : string := "timeout".
Definition error : string := "error".
End QueryStatus.

Module TransactionStatus.
Definition commit : string := "commit".
Definition rollback : string := "rollback".
Definition error : string := "error".
End TransactionStatus.

(** The module's own [__name__]. *)
Definition __name__ : string := "app.commons.timing.database".

(** A frame of the call stack: [f_globals.get("__name__")] and
    [f_code.co_name].  The parent frames ([f_back]) are the list that
    travels with it. *)
Record FrameType := {
  f_globals_name : option string;
  co_name : string }.

#[global] Instance FrameType_inhabited : Inhabited FrameType :=
  populate {| f_globals_name := None; co_name := "" |}.

(** [f.f_globals.get("__name__") or "?"] *)
Definition frame_name (f : FrameType) : string :=
  str_or (default "" (f_globals_name f)) "?".

(** [any(tuple(name.startswith(i) for i in ignores))] *)
Definition ignored (ignores : list string) (name : string) : bool :=
  existsb (fun i => String.prefix i name) ignores.

(** The [while] loop of [_discover_caller]: [f] is the frame in hand,
    [back] the chain reached through [f_back], [name] the current name. *)
Fixpoint discover_loop (ignores : list string) (f : FrameType)
    (back : list FrameType) (name : string) {struct back}
  : FrameType * string :=
  if ignored ignores name then
    match back with
    | [] => (f, "?")
    | f' :: back' => discover_loop ignores f' back' (frame_name f')
    end
  else (f, name).

Definition discover_ignores (additional_ignores : option (list string))
  : list string :=
  [__name__; "app.commons.tracing"; "contextlib"]
    ++ default [] additional_ignores.

(** [_discover_caller(additional_ignores)], run where [sys._getframe()]
    is [f] and its parents are [back]. *)
Definition _discover_caller (additional_ignores : option (list string))
    (f : FrameType) (back : list FrameType) : FrameType * string :=
  discover_loop (discover_ignores additional_ignores) f back (frame_name f).

(** Modelled from the spec: [app.commons.timing.base.format_exc_name] is
    not among the sources; the spec has the exit "classify the exception's
    type name into exception_name", so the name of the class is taken. *)
Definition format_exc_name (exc_type : PyClass) : string := cls_name exc_type.

(** The classes [QueryTimer.__exit__] counts as timeouts. *)
Definition known_timeout_errors : list string :=
  ["asyncio.TimeoutError"; "asyncio.CancelledError";
   "concurrent.futures.TimeoutError"; "psycopg2.errors.QueryCanceledError"].

(** Which class of the timer hierarchy an object was built from; it
    selects the [__enter__] and the [process_result] that run. *)
Inductive TimerClass := QueryTimerCls | ExecuteTimerCls | TransactionTimerCls.

Module BaseTimer.

(** Modelled from the spec: [tracing.BaseTimer] is not among the sources.
    The spec's Timer has a "start timestamp, end timestamp (unset until
    exit)". *)
Record t := { start_counter : option Z; end_counter : option Z }.

Definition __init__ : t := {| start_counter := None; end_counter := None |}.

(** Modelled from the spec: "enter(): record start timestamp". *)
Definition __enter__ (now : Z) (self : t) : t :=
  {| start_counter := Some now; end_counter := end_counter self |}.

(** Modelled from the spec: "exit(exception_info): record end timestamp
    unconditionally". *)
Definition __exit__ (now : Z) (self : t) : t :=
  {| start_counter := start_counter self; end_counter := Some now |}.

End BaseTimer.

Module QueryTimer.

(** The attributes of a timer object; [base] holds those of the parent
    class [tracing.BaseTimer]. *)
Record t := {
  timer_class : TimerClass;
  base : BaseTimer.t;
  database : option nat;
  additional_ignores : option (list string);
  calling_module_name : string;
  calling_function_name : string;
  stack_frame : option FrameType;
  request_status : string;
  exception_name : string }.

Definition set_base (b : BaseTimer.t) (self : t) : t :=
  {| timer_class := timer_class self;
     base := b;
     database := database self;
     additional_ignores := additional_ignores self;
     calling_module_name := calling_module_name self;
     calling_function_name := calling_function_name self;
     stack_frame := stack_frame self;
     request_status := request_status self;
     exception_name := exception_name self |}.

Definition set_request_status (s : string) (self : t) : t :=
  {| timer_class := timer_class self;
     base := base self;
     database := database self;
     additional_ignores := additional_ignores self;
     calling_module_name := calling_module_name self;
     calling_function_name := calling_function_name self;
     stack_frame := stack_frame self;
     request_status := s;
     exception_name := exception_name self |}.

Definition set_exception_name (s : string) (self : t) : t :=
  {| timer_class := timer_class self;
     base := base self;
     database := database self;
     additional_ignores := additional_ignores self;
     calling_module_name := calling_module_name self;
     calling_function_name := calling_function_name self;
     stack_frame := stack_frame self;
     request_status := request_status self;
     exception_name := s |}.

Definition set_caller (frame : FrameType) (module_name : string) (self : t)
  : t :=
  {| timer_class := timer_class self;
     base := base self;
     database := database self;
     additional_ignores := additional_ignores self;
     calling_module_name := module_name;
     calling_function_name := calling_function_name self;
     stack_frame := Some frame;
     request_status := request_status self;
     exception_name := exception_name self |}.

Definition set_calling_function_name (s : string) (self : t) : t :=
  {| timer_class := timer_class self;
     base := base self;
     database := database self;
     additional_ignores := additional_ignores self;
     calling_module_name := calling_module_name self;
     calling_function_name := s;
     stack_frame := stack_frame self;
     request_status := request_status self;
     exception_name := exception_name self |}.

(** An object of class [cls] whose [request_status] class attribute is
    [class_status], after [QueryTimer.__init__] has run on it. *)
Definition new (cls : TimerClass) (class_status : string)
    (database : option nat)
    (calling_function_name calling_module_name : string)
    (additional_ignores : option (list string)) : t :=
  {| timer_class := cls;
     base := BaseTimer.__init__;
     database := database;
     additional_ignores := additional_ignores;
     calling_module_name := calling_module_name;
     calling_function_name := calling_function_name;
     stack_frame := None;
     request_status := class_status;
     exception_name := "" |}.

(** [QueryTimer(database, calling_function_name=..., calling_module_name=...,
    additional_ignores=...)] *)
Definition __init__ := new QueryTimerCls QueryStatus.success.

(** [QueryTimer.__exit__(self, exc_type, exc_value, traceback)], run when
    the clock reads [now]: the timer it leaves and the value it returns. *)
Definition __exit__ (now : Z) (self : t) (exc_type : option PyClass)
    (exc_value : option PyExc) (traceback : option Traceback) : t * bool :=
  (* ensure we get timing information *)
  let self := set_base (BaseTimer.__exit__ now (base self)) self in
  match exc_type with
  | None =>
      (* no error, request is successful *)
      (self, false)
  | Some exc_type =>
      (* record exception info *)
      let self := set_exception_name (format_exc_name exc_type) self in
      (* don't override the request status if it's already set *)
      if truthy (request_status self)
         && negb (String.eqb (request_status self) QueryStatus.success)
      then (self, false)
      else if isinstance exc_value known_timeout_errors
      then (set_request_status QueryStatus.timeout self, false)
      else (set_request_status QueryStatus.error self, false)
  end.

End QueryTimer.

Module ExecuteTimer.

(** [ExecuteTimer(database=..., additional_ignores=...)] *)
Definition __init__ := QueryTimer.new ExecuteTimerCls QueryStatus.success.

(** [ExecuteTimer.__enter__], run when the clock reads [now] and
    [sys._getframe()] inside [_discover_caller] is [f] with parents
    [back]. *)
Definition __enter__ (now : Z) (f : FrameType) (back : list FrameType)
    (self : QueryTimer.t) : QueryTimer.t :=
  let self :=
    QueryTimer.set_base (BaseTimer.__enter__ now (QueryTimer.base self)) self in
  let '(frame, name) :=
    _discover_caller (QueryTimer.additional_ignores self) f back in
  let self := QueryTimer.set_caller frame name self in
  QueryTimer.set_calling_function_name (co_name frame) self.

End ExecuteTimer.

Module TransactionTimer.

(** [TransactionTimer(...)]: the class attribute [request_status] is
    [TransactionStatus.commit]. *)
Definition __init__ :=
  QueryTimer.new TransactionTimerCls TransactionStatus.commit.

(** [TransactionTimer.process_result(self, result)]; the parent's
    [process_result] it ends with is that of [tracing.BaseTimer], to which
    the spec gives no effect on the timer. *)
Definition process_result (result : string) (self : QueryTimer.t)
  : QueryTimer.t :=
  QueryTimer.set_request_status result self.

End TransactionTimer.

(** [tracker.__enter__()], by the class of the object. *)
Definition timer_enter (now : Z) (f : FrameType) (back : list FrameType)
    (self : QueryTimer.t) : QueryTimer.t :=
  match QueryTimer.timer_class self with
  | QueryTimerCls =>
      QueryTimer.set_base (BaseTimer.__enter__ now (QueryTimer.base self)) self
  | ExecuteTimerCls | TransactionTimerCls => ExecuteTimer.__enter__ now f back self
  end.

(** [tracker.process_result(result)], by the class of the object.
    Modelled from the spec: for the classes that do not override it the
    method is that of [tracing.BaseTimer], which is not among the sources;
    the spec gives [process_result] an effect "for multi-phase timers"
    only. *)
Definition timer_process_result (result : string) (self : QueryTimer.t)
  : QueryTimer.t :=
  match QueryTimer.timer_class self with
  | QueryTimerCls | ExecuteTimerCls => self
  | TransactionTimerCls => TransactionTimer.process_result result self
  end.

(** ** The objects the manager works on, and the store they live in *)

(** An object handed to a wrapper as [args[0]], by the attributes the
    module reads: [None] where the object has no such attribute,
    [Some None] where the attribute holds [None]. *)
Record PyObject := {
  attr_tracker : option (option nat);
  attr_stack : option (option nat);
  attr_database_name : option string;
  attr_instance_name : option string }.

#[global] Instance PyObject_inhabited : Inhabited PyObject :=
  populate {| attr_tracker := None; attr_stack := None;
              attr_database_name := None; attr_instance_name := None |}.

#[global] Instance QueryTimer_inhabited : Inhabited QueryTimer.t :=
  populate (QueryTimer.__init__ None "" "" None).

(** Modelled from the spec: [tracing.Breadcrumb] is not among the sources;
    the spec's trace context exposes [application_name],
    [processor_name], [repository_name] and [transaction_name]. *)
Record Breadcrumb := {
  application_name : string;
  processor_name : string;
  repository_name : string;
  transaction_name : string }.

(** What an [ExitStack] holds in [_exit_callbacks]: the [__exit__] of a
    timer, or the exit of a breadcrumb context manager that puts
    [previous] back. *)
Inductive ExitCallback :=
| exit_of_timer (tracker : nat)
| exit_of_breadcrumb (previous : Breadcrumb).

(** What the run leaves behind for an observer: the records handed to the
    logger and to the stats client, and each exit callback an [ExitStack]
    ran, with the exception type it was given. *)
Inductive Event :=
| log_info (message : string) (transaction : string)
    (database caller : list (string * string))
| stats_timing (stat_name : string) (tags : list (string * string))
| released (cb : ExitCallback) (exc_type : option PyClass).

Record World := {
  timers : list QueryTimer.t;
  stacks : list (list ExitCallback);
  objects : list PyObject;
  BREADCRUMB : Breadcrumb;
  clock : Z;
  events : list Event }.

Definition set_timers (v : list QueryTimer.t) (w : World) : World :=
  {| timers := v; stacks := stacks w; objects := objects w;
     BREADCRUMB := BREADCRUMB w; clock := clock w; events := events w |}.

Definition set_stacks (v : list (list ExitCallback)) (w : World) : World :=
  {| timers := timers w; stacks := v; objects := objects w;
     BREADCRUMB := BREADCRUMB w; clock := clock w; events := events w |}.

Definition set_objects (v : list PyObject) (w : World) : World :=
  {| timers := timers w; stacks := stacks w; objects := v;
     BREADCRUMB := BREADCRUMB w; clock := clock w; events := events w |}.

Definition set_BREADCRUMB (v : Breadcrumb) (w : World) : World :=
  {| timers := timers w; stacks := stacks w; objects := objects w;
     BREADCRUMB := v; clock := clock w; events := events w |}.

Definition set_clock (v : Z) (w : World) : World :=
  {| timers := timers w; stacks := stacks w; objects := objects w;
     BREADCRUMB := BREADCRUMB w; clock := v; events := events w |}.

Definition emit (e : Event) (w : World) : World :=
  {| timers := timers w; stacks := stacks w; objects := objects w;
     BREADCRUMB := BREADCRUMB w; clock := clock w;
     events := events w ++ [e] |}.

(** Reading the performance counter: time moves on. *)
Definition perf_counter (w : World) : Z * World :=
  (clock w, set_clock (clock w + 1) w).

(** ** Computations that change the store and may raise *)

Definition M (A : Type) : Type := World -> Outcome A * World.

Definition ret {A} (a : A) : M A := fun w => (Returned a, w).

Definition raise {A} (e : PyExc) : M A := fun w => (Raised e, w).

Definition bind {A B} (m : M A) (k : A -> M B) : M B :=
  fun w =>
    match m w with
    | (Returned a, w') => k a w'
    | (Raised e, w') => (Raised e, w')
    end.

(** [try: body  except: handler], the handler given the exception in
    flight. *)
Definition try_except {A} (body : M A) (handler : PyExc -> M A) : M A :=
  fun w =>
    match body w with
    | (Returned a, w') => (Returned a, w')
    | (Raised e, w') => handler e w'
    end.

Definition lift (f : World -> World) : M unit := fun w => (Returned tt, f w).

Notation "'let*' x := m 'in' k" := (bind m (fun x => k))
  (at level 10, x name, m at level 100, k at level 200).
Notation "m ;;; k" := (bind m (fun _ => k))
  (at level 100, k at level 200, right associativity).

(** [obj.tracker] *)
Definition get_tracker (obj : nat) : M (option nat) :=
  fun w =>
    match attr_tracker (objects w !!! obj) with
    | Some v => (Returned v, w)
    | None => (Raised (AttributeError "tracker"), w)
    end.

(** [obj.stack] *)
Definition get_stack (obj : nat) : M (option nat) :=
  fun w =>
    match attr_stack (objects w !!! obj) with
    | Some v => (Returned v, w)
    | None => (Raised (AttributeError "stack"), w)
    end.

(** [obj.stack = v] *)
Definition assign_stack (obj : nat) (v : option nat) (w : World) : World :=
  let o := objects w !!! obj in
  set_objects
    (<[obj := {| attr_tracker := attr_tracker o; attr_stack := Some v;
                 attr_database_name := attr_database_name o;
                 attr_instance_name := attr_instance_name o |}]> (objects w)) w.

(** [obj.tracker = v] *)
Definition assign_tracker (obj : nat) (v : option nat) (w : World) : World :=
  let o := objects w !!! obj in
  set_objects
    (<[obj := {| attr_tracker := Some v; attr_stack := attr_stack o;
                 attr_database_name := attr_database_name o;
                 attr_instance_name := attr_instance_name o |}]> (objects w)) w.

(** [isinstance(obj, TrackedTransaction)]: the runtime-checkable protocol
    asks for both attributes. *)
Definition is_TrackedTransaction (o : PyObject) : bool :=
  bool_decide (is_Some (attr_tracker o)) && bool_decide (is_Some (attr_stack o)).

(** [isinstance(obj, Database)] *)
Definition is_Database (o : PyObject) : bool :=
  bool_decide (is_Some (attr_database_name o))
  && bool_decide (is_Some (attr_instance_name o)).

(** ** contextlib.ExitStack *)

Module ExitStack.

(** [ExitStack()]: a new object with no callbacks. *)
Definition __init__ (w : World) : nat * World :=
  (length (stacks w), set_stacks (stacks w ++ [[]]) w).

(** Pushing the exit of a context manager that has been entered. *)
Definition push (stack : nat) (cb : ExitCallback) (w : World) : World :=
  set_stacks (<[stack := (stacks w !!! stack) ++ [cb]]> (stacks w)) w.

(** One exit callback called with the exception details: what it returns
    and the store it leaves. *)
Definition call (cb : ExitCallback) (exc_type : option PyClass)
    (exc_value : option PyExc) (traceback : option Traceback) (w : World)
  : bool * World :=
  let w := emit (released cb exc_type) w in
  match cb with
  | exit_of_timer tracker =>
      let '(now, w) := perf_counter w in
      let '(timer, result) :=
        QueryTimer.__exit__ now (timers w !!! tracker)
          exc_type exc_value traceback in
      (result, set_timers (<[tracker := timer]> (timers w)) w)
  | exit_of_breadcrumb previous => (false, set_BREADCRUMB previous w)
  end.

(** The [while self._exit_callbacks] loop of [__exit__]: [pending] are the
    callbacks still on the stack, the next to pop first. *)
Fixpoint unwind (stack : nat) (pending : list ExitCallback)
    (exc_type : option PyClass) (exc_value : option PyExc)
    (traceback : option Traceback) (suppressed_exc : bool) (w : World)
  : bool * World :=
  match pending with
  | [] => (suppressed_exc, w)
  | cb :: rest =>
      let w := set_stacks (<[stack := rev rest]> (stacks w)) w in
      let '(result, w) := call cb exc_type exc_value traceback w in
      if result
      then unwind stack rest None None None true w
      else unwind stack rest exc_type exc_value traceback suppressed_exc w
  end.

(** [stack.__exit__(exc_type, exc_value, traceback)] *)
Definition __exit__ (stack : nat) (exc_type : option PyClass)
    (exc_value : option PyExc) (traceback : option Traceback) : M bool :=
  fun w =>
    let received_exc := bool_decide (is_Some exc_type) in
    let '(suppressed_exc, w) :=
      unwind stack (rev (stacks w !!! stack)) exc_type exc_value traceback
        false w in
    (Returned (received_exc && suppressed_exc), w).

End ExitStack.

(** ** The timing managers *)

(** The attributes [QueryTimingManager.__init__] sets; the manager keeps
    no state of a call. *)
Record QueryTimingManager := {
  message : string;
  manager_additional_ignores : list string;
  manager_calling_module_name : string;
  manager_calling_function_name : string }.

(** [d[key] = value] on a dict kept in insertion order. *)
Fixpoint dict_set (key value : string) (d : list (string * string))
  : list (string * string) :=
  match d with
  | [] => [(key, value)]
  | (k, v) :: rest =>
      if String.eqb k key then (k, value) :: rest
      else (k, v) :: dict_set key value rest
  end.

(** Modelled from the spec: [tracing.Breadcrumb.dict] is not among the
    sources; with [skip_defaults=True] the fields named in [include] that
    were set are kept. *)
Definition breadcrumb_dict (include : list string) (b : Breadcrumb)
  : list (string * string) :=
  List.filter
    (fun kv => existsb (String.eqb (fst kv)) include && truthy (snd kv))
    [("application_name", application_name b);
     ("processor_name", processor_name b);
     ("repository_name", repository_name b);
     ("transaction_name", transaction_name b)].

(** [log_transaction_timing(tracker, timer)]; the latency it also logs is
    read from [tracing.BaseTimer] and is left out of the record. *)
Definition log_transaction_timing (tracker : QueryTimingManager) (timer : nat)
    (w : World) : World :=
  let t := timers w !!! timer in
  match QueryTimer.database t with
  | None => w
  | Some db =>
      let o := objects w !!! db in
      if negb (is_Database o) then w
      else
        let database :=
          [("database_name", default "" (attr_database_name o));
           ("instance_name", default "" (attr_instance_name o));
           ("request_status", QueryTimer.request_status t)] in
        let caller :=
          breadcrumb_dict
            ["application_name"; "processor_name"; "repository_name"]
            (BREADCRUMB w) in
        let caller :=
          if truthy (QueryTimer.calling_module_name t)
          then dict_set "module_name" (QueryTimer.calling_module_name t) caller
          else caller in
        let database :=
          if truthy (QueryTimer.exception_name t)
          then dict_set "exception_name" (QueryTimer.exception_name t) database
          else database in
        emit (log_info (message tracker) (QueryTimer.calling_function_name t)
                database caller) w
  end.

(** [_stat_query_timing(tracker, timer, query_type=...)]; the latency is
    left out as above, and so is the debug line that repeats the tags. *)
Definition _stat_query_timing (tracker : QueryTimingManager) (timer : nat)
    (query_type : string) (w : World) : World :=
  let t := timers w !!! timer in
  match QueryTimer.database t with
  | None => w
  | Some db =>
      let o := objects w !!! db in
      if negb (is_Database o) then w
      else
        let stat_name := "io.db.latency" in
        let tags :=
          breadcrumb_dict ["application_name"; "transaction_name"]
            (BREADCRUMB w) in
        let tags :=
          if truthy query_type then dict_set "query_type" query_type tags
          else tags in
        let tags :=
          if truthy (QueryTimer.calling_function_name t)
          then dict_set "query_name" (QueryTimer.calling_function_name t) tags
          else tags in
        let tags :=
          if truthy (default "" (attr_database_name o))
          then dict_set "database_name" (default "" (attr_database_name o)) tags
          else tags in
        let tags :=
          if truthy (default "" (attr_instance_name o))
          then dict_set "instance_name" (default "" (attr_instance_name o)) tags
          else tags in
        let tags :=
          if truthy (QueryTimer.request_status t)
          then dict_set "request_status" (QueryTimer.request_status t) tags
          else tags in
        emit (stats_timing stat_name tags) w
  end.

Definition stat_transaction_timing (tracker : QueryTimingManager)
    (timer : nat) : World -> World :=
  _stat_query_timing tracker timer "transaction".

Module TransactionTimingManager.

(** [TransactionTimingManager(message=...)] *)
Definition __init__ (message : string) : QueryTimingManager :=
  {| message := message;
     manager_additional_ignores := ["app.commons.database"];
     manager_calling_module_name := "";
     manager_calling_function_name := "" |}.

(** database transaction processors *)
Definition processors
  : list (QueryTimingManager -> nat -> World -> World) :=
  [log_transaction_timing; stat_transaction_timing].

(** [create_tracker(obj, func=..., args=..., kwargs=...)] *)
Definition create_tracker (self : QueryTimingManager) (obj : option nat)
  : QueryTimer.t :=
  TransactionTimer.__init__ obj
    (manager_calling_function_name self)
    (manager_calling_module_name self)
    (Some (manager_additional_ignores self)).

(** Modelled from the spec: [tracing.TimingManager._start_tracker] is not
    among the sources; the spec has [start] "creates and enters a Timer
    attached to the entity" within the resource-stack scope, so the tracker
    is created and entered with [stack.enter_context].  [f] and [back] are
    the frames [sys._getframe()] finds when the timer is entered. *)
Definition _start_tracker (self : QueryTimingManager) (stack obj : nat)
    (f : FrameType) (back : list FrameType) (w : World) : nat * World :=
  let tracker := length (timers w) in
  let w := set_timers (timers w ++ [create_tracker self (Some obj)]) w in
  let '(now, w) := perf_counter w in
  let w :=
    set_timers
      (<[tracker := timer_enter now f back (timers w !!! tracker)]> (timers w))
      w in
  (tracker, ExitStack.push stack (exit_of_timer tracker) w).

(** Modelled from the spec: [tracing.TimingManager._exit_tracker] is not
    among the sources; the spec has a terminal phase set "the Timer's
    status ... via process_result", run the "transaction Processors", and
    only then unwind the resource stack, which the phase does itself. *)
Definition _exit_tracker (self : QueryTimingManager) (tracker : nat)
    (result : string) : M unit :=
  lift (fun w =>
    let w :=
      set_timers
        (<[tracker := timer_process_result result (timers w !!! tracker)]>
           (timers w)) w in
    fold_left (fun w processor => processor self tracker w) processors w).

(** Modelled from the spec: [tracing.breadcrumb_ctxt_manager] is not among
    the sources; entering it is "a reversible context mutation that records
    the operation's discovered name as the active transaction name", and
    its exit, pushed on [stack], puts the previous breadcrumb back. *)
Definition enter_breadcrumb (stack : nat) (name : string) (w : World) : World :=
  let previous := BREADCRUMB w in
  let w :=
    set_BREADCRUMB
      {| application_name := application_name previous;
         processor_name := processor_name previous;
         repository_name := repository_name previous;
         transaction_name := name |} w in
  ExitStack.push stack (exit_of_breadcrumb previous) w.

(** [start(obj=obj, func=func, args=args, kwargs=kwargs)] *)
Definition start (self : QueryTimingManager) (obj : nat)
    (f : FrameType) (back : list FrameType) : M nat :=
  fun w =>
    let '(stack, w) := ExitStack.__init__ w in
    let w := assign_stack obj (Some stack) w in
    let '(tracker, w) := _start_tracker self stack obj f back w in
    let w := assign_tracker obj (Some tracker) w in
    (* tracing: set transaction name *)
    let w :=
      enter_breadcrumb stack
        (QueryTimer.calling_function_name (timers w !!! tracker)) w in
    (Returned tracker, w).

(** [commit(obj=obj)] *)
Definition commit (self : QueryTimingManager) (obj : nat) : M unit :=
  (* process result *)
  let* tracker := get_tracker obj in
  match tracker with
  | Some tracker => _exit_tracker self tracker "commit"
  | None => ret tt
  end ;;;
  (* exit stack *)
  let* stack := get_stack obj in
  match stack with
  | Some stack => ExitStack.__exit__ stack None None None ;;; ret tt
  | None => ret tt
  end.

(** [rollback(exc_type, exc_value, traceback, obj=obj)] *)
Definition rollback (self : QueryTimingManager) (exc_type : option PyClass)
    (exc_value : option PyExc) (traceback : option Traceback) (obj : nat)
  : M unit :=
  (* process result *)
  let* tracker := get_tracker obj in
  match tracker with
  | Some tracker => _exit_tracker self tracker "rollback"
  | None => ret tt
  end ;;;
  (* exit stack *)
  let* stack := get_stack obj in
  match stack with
  | Some stack => ExitStack.__exit__ stack exc_type exc_value traceback ;;; ret tt
  | None => ret tt
  end.

(** [error(exc_type, exc_value, traceback, obj=obj)] *)
Definition error (self : QueryTimingManager) (exc_type : option PyClass)
    (exc_value : option PyExc) (traceback : option Traceback) (obj : nat)
  : M unit :=
  (* no result to process *)
  let* tracker := get_tracker obj in
  match tracker with
  | Some tracker => _exit_tracker self tracker "error"
  | None => ret tt
  end ;;;
  (* exit stack *)
  let* stack := get_stack obj in
  match stack with
  | Some stack => ExitStack.__exit__ stack exc_type exc_value traceback ;;; ret tt
  | None => ret tt
  end.

(** [args[0]] *)
Definition first_arg (args : list nat) : M nat :=
  match args with
  | obj :: _ => ret obj
  | [] => raise (IndexError "tuple index out of range")
  end.

(** The [except:] block the wrappers share: the error phase with
    [sys.exc_info()], then [raise]. *)
Definition route_to_error {A} (self : QueryTimingManager) (obj : nat)
    (e : PyExc) : M A :=
  let '(exc_type, exc_val, exc_tb) := exc_info e in
  error self exc_type exc_val exc_tb obj ;;;
  raise e.

(** The wrapper [track_start(func)] returns, called with [args]; [func]
    is the wrapped coroutine run to its end. *)
Definition track_start {A} (self : QueryTimingManager)
    (func : list nat -> M A) (f : FrameType) (back : list FrameType)
    (args : list nat) : M A :=
  let* obj := first_arg args in
  (fun w =>
     if is_TrackedTransaction (objects w !!! obj)
     then (start self obj f back ;;; ret tt) w
     else ret tt w) ;;;
  try_except (func args)
    (fun e =>
       (* error starting the transaction *)
       route_to_error self obj e).

(** The wrapper [track_commit(func)] returns, called with [args]. *)
Definition track_commit {A} (self : QueryTimingManager)
    (func : list nat -> M A) (args : list nat) : M A :=
  try_except
    (let* result := func args in
     (* successful commit *)
     let* obj := first_arg args in
     (fun w =>
        if is_TrackedTransaction (objects w !!! obj)
        then commit self obj w
        else ret tt w) ;;;
     ret result)
    (fun e =>
       (* error executing the commit itself *)
       let* obj := first_arg args in
       route_to_error self obj e).

End TransactionTimingManager.

(** ** app/commons/async_kafka_producer.py *)

Module KafkaMessageProducer.

(** A delivery error of the client, and a delivered message. *)
Record KafkaError := { error_code : Z; error_str : string }.
Record Message := { msg_topic : string; msg_value : string; msg_offset : Z }.

(** [KafkaException(err)] *)
Inductive KafkaException := mkKafkaException (err : KafkaError).

(** A future of the event loop. *)
Inductive Future :=
| pending
| finished (result : option Message)
| failed (exception : KafkaException)
| cancelled.

(** A call handed to the loop: the bound method and its argument. *)
Inductive Handle :=
| set_result (result : nat) (msg : option Message)
| set_exception (result : nat) (exception : KafkaException).

(** The event loop: the futures it created and the calls it has been
    asked to make, oldest first. *)
Record EventLoop := { futures : list Future; _ready : list Handle }.

(** The client: what was handed to its [produce], the delivery callback
    given by the future its closure holds. *)
Record Submission := { topic : string; value : string; on_delivery : nat }.

Record t := {
  _loop : EventLoop;
  _producer : list Submission;
  _cancelled : bool }.

(** [loop.create_future()] *)
Definition create_future (loop : EventLoop) : nat * EventLoop :=
  (length (futures loop),
   {| futures := futures loop ++ [pending]; _ready := _ready loop |}).

(** [loop.call_soon_threadsafe(callback, arg)] *)
Definition call_soon_threadsafe (h : Handle) (loop : EventLoop) : EventLoop :=
  {| futures := futures loop; _ready := _ready loop ++ [h] |}.

(** The loop making one call: [None] when the future was no longer
    pending and the call raised [InvalidStateError]. *)
Definition run_handle (h : Handle) (loop : EventLoop) : option EventLoop :=
  let resolve (result : nat) (state : Future) :=
    match futures loop !! result with
    | Some pending =>
        Some {| futures := <[result := state]> (futures loop);
                _ready := _ready loop |}
    | _ => None
    end in
  match h with
  | set_result result msg => resolve result (finished msg)
  | set_exception result exception => resolve result (failed exception)
  end.

(** The callback [ack(err, msg)] that [produce] defines, closed over the
    future [result] and run on the polling thread. *)
Definition ack (result : nat) (err : option KafkaError) (msg : option Message)
    (loop : EventLoop) : EventLoop :=
  match err with
  | Some err =>
      call_soon_threadsafe (set_exception result (mkKafkaException err)) loop
  | None => call_soon_threadsafe (set_result result msg) loop
  end.

(** [produce(self, topic, value)]: the future it returns and the producer
    it leaves. *)
Definition produce (self : t) (topic value : string) : nat * t :=
  let '(result, loop) := create_future (_loop self) in
  (result,
   {| _loop := loop;
      _producer :=
        _producer self
          ++ [{| topic := topic; value := value; on_delivery := result |}];
      _cancelled := _cancelled self |}).

End KafkaMessageProducer.

(** ** Values the examples below are run on *)

(** The guard of [QueryTimer.__exit__]: a status that is set and is not
    the default. *)
Definition status_already_set (status : string) : bool :=
  truthy status && negb (String.eqb status QueryStatus.success).

Definition QueryCanceled : PyExc :=
  {| exc_class :=
       {| cls_name := "psycopg2.errors.QueryCanceledError";
          cls_bases := ["psycopg2.OperationalError"; "psycopg2.DatabaseError";
                        "psycopg2.Error"; "Exception"; "BaseException";
                        "object"] |};
     exc_message := "canceling statement due to statement timeout";
     exc_traceback := [] |}.

Definition ValueError : PyExc :=
  {| exc_class := builtin_exception "ValueError";
     exc_message := "bad value"; exc_traceback := [] |}.

(** The exit callbacks a run has made so far, in order. *)
Definition is_release (e : Event) : bool :=
  match e with
  | released _ _ => true
  | _ => false
  end.

Definition releases (w : World) : list Event :=
  List.filter is_release (events w).


(** A transaction object of a database, idle. *)
Definition idle_transaction : PyObject :=
  {| attr_tracker := Some None; attr_stack := Some None;
     attr_database_name := Some "maindb";
     attr_instance_name := Some "replica" |}.

(** An object with none of the attributes of a tracked transaction. *)
Definition untracked_object : PyObject :=
  {| attr_tracker := None; attr_stack := None;
     attr_database_name := None; attr_instance_name := None |}.

Definition sample_world (o : PyObject) : World :=
  {| timers := []; stacks := []; objects := [o];
     BREADCRUMB :=
       {| application_name := "payin"; processor_name := "";
          repository_name := ""; transaction_name := "" |};
     clock := 0; events := [] |}.

Definition sample_manager : QueryTimingManager :=
  TransactionTimingManager.__init__ "transaction complete".

(** The call stack when the timer of a transaction is entered. *)
Definition sample_frame : FrameType :=
  {| f_globals_name := Some __name__; co_name := "_discover_caller" |}.

Definition sample_back : list FrameType :=
  [{| f_globals_name := Some __name__; co_name := "__enter__" |};
   {| f_globals_name := Some "contextlib"; co_name := "enter_context" |};
   {| f_globals_name := Some "app.commons.tracing";
      co_name := "_start_tracker" |};
   {| f_globals_name := Some __name__; co_name := "start" |};
   {| f_globals_name := Some __name__; co_name := "async_wrapper" |};
   {| f_globals_name := Some "app.commons.database.client";
      co_name := "start" |};
   {| f_globals_name := Some "app.payin.repository";
      co_name := "create_payment" |}].

(** A wrapped operation that fails. *)
Definition failing_operation (args : list nat) : M unit := raise ValueError.

(** [w'] is [w] but for the timers and for records handed to the logger
    and the stats client: the objects, the exit stacks and the releases
    made so far are the same. *)
Definition unreleased (w w' : World) : Prop :=
  stacks w' = stacks w /\ objects w' = objects w
  /\ BREADCRUMB w' = BREADCRUMB w /\ clock w' = clock w
  /\ releases w' = releases w.

(** ** The rest of app/commons/timing/database.py *)

(** [d.get(key)] on a dict kept in insertion order. *)
Fixpoint dict_get {V} (key : string) (d : list (string * V)) : option V :=
  match d with
  | [] => None
  | (k, v) :: rest => if String.eqb k key then Some v else dict_get key rest
  end.

(** [QueryTimingManager(message=..., calling_function_name=...,
    calling_module_name=...)] *)
Definition QueryTimingManager__init__ (message : string)
    (calling_function_name calling_module_name : string)
  : QueryTimingManager :=
  {| message := message;
     manager_additional_ignores := ["app.commons.database"];
     manager_calling_module_name := calling_module_name;
     manager_calling_function_name := calling_function_name |}.

(** [QueryTimingManager.create_tracker(obj, ...)] *)
Definition QueryTimingManager_create_tracker (self : QueryTimingManager)
    (obj : option nat) : QueryTimer.t :=
  QueryTimer.__init__ obj
    (manager_calling_function_name self)
    (manager_calling_module_name self)
    (Some (manager_additional_ignores self)).

(** [ExecuteTimingManager.create_tracker(obj, ...)]: the names are left
    at the defaults of [QueryTimer.__init__]. *)
Definition ExecuteTimingManager_create_tracker (self : QueryTimingManager)
    (obj : option nat) : QueryTimer.t :=
  ExecuteTimer.__init__ obj "" "" (Some (manager_additional_ignores self)).

(** The manager [track_query(func)] builds, from [func.__name__] and
    [func.__module__]. *)
Definition track_query_manager (func__name__ func__module__ : string)
  : QueryTimingManager :=
  QueryTimingManager__init__ "query complete" func__name__ func__module__.

(** The manager [track_execute(func)] builds. *)
Definition track_execute_manager : QueryTimingManager :=
  QueryTimingManager__init__ "query complete" "" "".

(** A value of the [database] dict that [log_query_timing] logs. *)
Inductive LogValue :=
| log_str (s : string)
| log_bool (b : bool).

(** The keyword arguments of the [log.info] call of [log_query_timing]. *)
Record QueryLog := {
  log_message : string;
  log_query : string;
  log_database : list (string * LogValue);
  log_caller : list (string * string) }.

(** [log_query_timing(tracker, timer)]: what it hands to [log.info], or
    [None] when it returns without logging.  The latency is left out as in
    [log_transaction_timing]. *)
Definition log_query_timing (tracker : QueryTimingManager) (timer : nat)
    (w : World) : option QueryLog :=
  let t := timers w !!! timer in
  match QueryTimer.database t with
  | None => None
  | Some db =>
      let o := objects w !!! db in
      if negb (is_Database o) then None
      else
        let breadcrumb := BREADCRUMB w in
        let database :=
          [("database_name", log_str (default "" (attr_database_name o)));
           ("instance_name", log_str (default "" (attr_instance_name o)));
           ("transaction", log_bool (truthy (transaction_name breadcrumb)));
           ("transaction_name", log_str (transaction_name breadcrumb));
           ("request_status", log_str (QueryTimer.request_status t))] in
        let caller :=
          breadcrumb_dict
            ["application_name"; "processor_name"; "repository_name"]
            breadcrumb in
        let caller :=
          if truthy (QueryTimer.calling_module_name t)
          then dict_set "module_name" (QueryTimer.calling_module_name t) caller
          else caller in
        let database :=
          if truthy (QueryTimer.exception_name t)
          then database
                 ++ [("exception_name", log_str (QueryTimer.exception_name t))]
          else database in
        Some {| log_message := message tracker;
                log_query := QueryTimer.calling_function_name t;
                log_database := database;
                log_caller := caller |}
  end.

(** [stat_query_timing(tracker, timer)] *)
Definition stat_query_timing (tracker : QueryTimingManager) (timer : nat)
  : World -> World :=
  _stat_query_timing tracker timer "".

(** [isinstance(timer.database, Database)] for the timer at [timer]. *)
Definition timer_has_database (w : World) (timer : nat) : bool :=
  match QueryTimer.database (timers w !!! timer) with
  | Some db => is_Database (objects w !!! db)
  | None => false
  end.

(** The positional arguments a rollback is called with after the
    receiver: none, up to three exception details, or [more] further
    ones. *)
Inductive ExcArgs :=
| no_exc_args
| exc_args1 (exc_type : option PyClass)
| exc_args2 (exc_type : option PyClass) (exc_value : option PyExc)
| exc_args3 (exc_type : option PyClass) (exc_value : option PyExc)
    (traceback : option Traceback)
| exc_args_over (more : nat).

Definition TypeError (message : string) : PyExc :=
  {| exc_class := builtin_exception "TypeError";
     exc_message := message; exc_traceback := [] |}.

(** The [ValueError] of [obj, *exc_args = args] on an empty tuple. *)
Definition unpack_error : PyExc :=
  {| exc_class := builtin_exception "ValueError";
     exc_message := "not enough values to unpack (expected at least 1, got 0)";
     exc_traceback := [] |}.

(** [self.rollback] called with [exc_args] unpacked and [obj=obj]: the parameters left out are
    [None], and more than three positional arguments are a [TypeError]. *)
Definition call_rollback (self : QueryTimingManager) (exc_args : ExcArgs)
    (obj : nat) : M unit :=
  match exc_args with
  | no_exc_args => TransactionTimingManager.rollback self None None None obj
  | exc_args1 exc_type =>
      TransactionTimingManager.rollback self exc_type None None obj
  | exc_args2 exc_type exc_value =>
      TransactionTimingManager.rollback self exc_type exc_value None obj
  | exc_args3 exc_type exc_value traceback =>
      TransactionTimingManager.rollback self exc_type exc_value traceback obj
  | exc_args_over _ =>
      raise (TypeError "rollback() takes from 1 to 4 positional arguments")
  end.

(** The wrapper [track_rollback(func)] returns, called with the receiver
    in [args] and [exc_args] after it. *)
Definition track_rollback {A} (self : QueryTimingManager)
    (func : list nat -> M A) (args : list nat) (exc_args : ExcArgs) : M A :=
  try_except
    (let* result := func args in
     (* successful rollback *)
     let* obj :=
       match args with
       | obj :: _ => ret obj
       | [] => raise unpack_error
       end in
     (fun w =>
        if is_TrackedTransaction (objects w !!! obj)
        then call_rollback self exc_args obj w
        else ret tt w) ;;;
     ret result)
    (fun e =>
       (* error executing the rollback itself *)
       let* obj := TransactionTimingManager.first_arg args in
       TransactionTimingManager.route_to_error self obj e).

(** ** The rest of app/commons/async_kafka_producer.py *)

Module KafkaPolling.

Import KafkaMessageProducer.

(** [KafkaMessageProducer(configs, loop)]: a client with nothing handed
    to it, the flag down; the polling thread is started. *)
Definition __init__ (loop : EventLoop) : t :=
  {| _loop := loop; _producer := []; _cancelled := false |}.

(** [stop()]: the flag is set; the [join] that follows waits for the
    polling thread and changes nothing of the producer. *)
Definition stop (self : t) : t :=
  {| _loop := _loop self; _producer := _producer self; _cancelled := true |}.

(** A delivery report the client has ready: the callback it was given
    (by the future the callback holds), the error and the message. *)
Record DeliveryReport := {
  report_callback : nat;
  report_err : option KafkaError;
  report_msg : option Message }.

(** [self._producer.poll(0.1)]: the client calls the delivery callback of
    every report that is ready, in order. *)
Definition poll (ready : list DeliveryReport) (self : t) : t :=
  {| _loop :=
       fold_left
         (fun loop r =>
            ack (report_callback r) (report_err r) (report_msg r) loop)
         ready (_loop self);
     _producer := _producer self;
     _cancelled := _cancelled self |}.

(** What happens while the polling thread is in one turn of its loop: the
    reports that are ready when it polls, and whether another thread calls
    [stop()] before the turn ends. *)
Record PollRound := { arrived : list DeliveryReport; stop_called : bool }.

(** [_poll_loop()], run against the rounds that are observed: whether the
    loop has ended, and the producer it leaves. *)
Fixpoint _poll_loop (rounds : list PollRound) (self : t) {struct rounds}
  : bool * t :=
  if _cancelled self then (true, self)
  else
    match rounds with
    | [] => (false, self)
    | round :: rest =>
        let self := poll (arrived round) self in
        let self := if stop_called round then stop self else self in
        _poll_loop rest self
    end.

(** The polls of the rounds one after the other, with no [stop()]. *)
Definition polls (rounds : list PollRound) (self : t) : t :=
  fold_left (fun s round => poll (arrived round) s) rounds self.

(** The event loop making the calls it has been asked to make, oldest
    first; a call that raises [InvalidStateError] is reported by the loop
    and the next one is made. *)
Definition run_ready (loop : EventLoop) : EventLoop :=
  fold_left
    (fun l h => default l (run_handle h l))
    (_ready loop)
    {| futures := futures loop; _ready := [] |}.

(** What a delivery callback called with [err] and [msg] has its future
    resolved to. *)
Definition resolution (err : option KafkaError) (msg : option Message)
  : Future :=
  match err with
  | Some err => failed (mkKafkaException err)
  | None => finished msg
  end.

End KafkaPolling.

Module KafkaStopping.

Import KafkaMessageProducer QArith Qminmax.

(** The polling thread as [stop()] finds it: ended already, or still in
    its loop and ending [ends_in] seconds from now ([None]: not ending). *)
Inductive PollThread :=
| ended
| running (ends_in : option Q).

(** [thread.join(timeout)] on a thread that was started, called from
    another thread: it raises nothing and returns once the thread has
    ended or [timeout] seconds have passed; the seconds the caller
    waits. *)
Definition join (timeout : Q) (thread : PollThread) : Q :=
  match thread with
  | ended => 0
  | running (Some ends_in) => Qmin ends_in timeout
  | running None => timeout
  end.

(** [stop()], flag and join: what the call returns, the producer it
    leaves, and the seconds it waited for the polling thread. *)
Definition stop (self : t) (thread : PollThread) : Outcome unit * t * Q :=
  let self := KafkaPolling.stop self in
  (Returned tt, self, join 3 thread).

End KafkaStopping.

(** * Properties *)

(** ** The exit of a timer *)

Section TimerExit.

Variables (now : Z) (self : QueryTimer.t).

Lemma exit_without_exception exc_value traceback :
  QueryTimer.__exit__ now self None exc_value traceback
  = (QueryTimer.set_base (BaseTimer.__exit__ now (QueryTimer.base self)) self,
     false).
Proof. reflexivity. Qed.

Lemma exit_with_status_set exc_type exc_value traceback :
  status_already_set (QueryTimer.request_status self) = true ->
  QueryTimer.__exit__ now self (Some exc_type) exc_value traceback
  = (QueryTimer.set_exception_name (format_exc_name exc_type)
       (QueryTimer.set_base (BaseTimer.__exit__ now (QueryTimer.base self))
          self),
     false).
Proof.
  unfold status_already_set, QueryTimer.__exit__. cbn.
  intros ->. reflexivity.
Qed.

Lemma exit_classifies exc_type exc_value traceback :
  status_already_set (QueryTimer.request_status self) = false ->
  QueryTimer.__exit__ now self (Some exc_type) exc_value traceback
  = (QueryTimer.set_request_status
       (if isinstance exc_value known_timeout_errors
        then QueryStatus.timeout else QueryStatus.error)
       (QueryTimer.set_exception_name (format_exc_name exc_type)
          (QueryTimer.set_base (BaseTimer.__exit__ now (QueryTimer.base self))
             self)),
     false).
Proof.
  unfold status_already_set, QueryTimer.__exit__. cbn.
  intros ->. destruct (isinstance exc_value known_timeout_errors); reflexivity.
Qed.

End TimerExit.

Lemma status_already_set_spec status :
  status_already_set status = true
  <-> status <> "" /\ status <> QueryStatus.success.
Proof.
  unfold status_already_set, truthy.
  rewrite andb_true_iff, !negb_true_iff.
  split.
  - intros [H1 H2]. apply String.eqb_neq in H1. apply String.eqb_neq in H2.
    auto.
  - intros [H1 H2]. split; apply String.eqb_neq; assumption.
Qed.

(** An instance of one of the four classes is an instance of the tuple. *)
Lemma isinstance_known_timeout e :
  In (cls_name (exc_class e)) known_timeout_errors ->
  isinstance (Some e) known_timeout_errors = true.
Proof.
  intros Hin. unfold isinstance, mro.
  apply existsb_exists. exists (cls_name (exc_class e)). split.
  - left. reflexivity.
  - apply existsb_exists. exists (cls_name (exc_class e)).
    split; [assumption | apply String.eqb_refl].
Qed.

(** C1, as the code has it: a timer still at the [success] default that
    exits with a raised exception [e] ends with status [timeout] when [e]
    is an instance of one of the four timeout classes (in particular when
    its class is one of them) and with [error] for any other exception;
    exiting with no exception leaves the status at [success]. *)
Theorem exit_status_follows_exception (now : Z) (self : QueryTimer.t)
    (e : PyExc) :
  QueryTimer.request_status self = QueryStatus.success ->
  let raised :=
    fst (QueryTimer.__exit__ now self (Some (exc_class e)) (Some e)
           (Some (exc_traceback e))) in
  QueryTimer.request_status raised
  = (if isinstance (Some e) known_timeout_errors
     then QueryStatus.timeout else QueryStatus.error)
  /\ (In (cls_name (exc_class e)) known_timeout_errors ->
      QueryTimer.request_status raised = QueryStatus.timeout)
  /\ QueryTimer.request_status
       (fst (QueryTimer.__exit__ now self None None None))
     = QueryStatus.success.
Proof.
  intros Hstatus raised.
  assert (Hraised :
    QueryTimer.request_status raised
    = (if isinstance (Some e) known_timeout_errors
       then QueryStatus.timeout else QueryStatus.error)).
  { subst raised. rewrite exit_classifies; [reflexivity |].
    rewrite Hstatus. reflexivity. }
  split; [exact Hraised | split].
  - intros Hin. rewrite Hraised, isinstance_known_timeout by exact Hin.
    reflexivity.
  - rewrite exit_without_exception. exact Hstatus.
Qed.

Lemma exit_status_follows_exception_witness :
  QueryTimer.request_status
    (fst (QueryTimer.__exit__ 7 (QueryTimer.__init__ (Some 0) "get" "repo" None)
            (Some (exc_class QueryCanceled)) (Some QueryCanceled) (Some [])))
  = QueryStatus.timeout.
Proof.
  destruct (exit_status_follows_exception 7
              (QueryTimer.__init__ (Some 0) "get" "repo" None) QueryCanceled
              eq_refl) as (_ & Hclass & _).
  apply Hclass. simpl. tauto.
Defined.

(** C1, as it is stated, fails: the span of a transaction is measured by
    a [TransactionTimer], whose status starts at [commit]; when it exits
    with a query cancelled by the driver, which is one of the four
    timeout classes, the guard keeps the status at [commit] and [timeout]
    is not set. *)
Lemma transaction_span_exit_is_not_classified :
  isinstance (Some QueryCanceled) known_timeout_errors = true
  /\ QueryTimer.request_status
       (fst (QueryTimer.__exit__ 9
               (TransactionTimer.__init__ (Some 0) "" ""
                  (Some ["app.commons.database"]))
               (Some (exc_class QueryCanceled)) (Some QueryCanceled)
               (Some [])))
     = TransactionStatus.commit
  /\ QueryTimer.request_status
       (fst (QueryTimer.__exit__ 9
               (TransactionTimer.__init__ (Some 0) "" ""
                  (Some ["app.commons.database"]))
               (Some (exc_class QueryCanceled)) (Some QueryCanceled)
               (Some [])))
     <> QueryStatus.timeout.
Proof.
  split; [reflexivity | split; [reflexivity | discriminate]].
Qed.

(** C2: once the status is set to something other than [success], an exit
    with any exception class leaves it as it is; the exit records the
    exception name (and the end of the span) and nothing else. *)
Theorem exit_keeps_status_already_set (now : Z) (self : QueryTimer.t)
    (exc_type : PyClass) (exc_value : option PyExc)
    (traceback : option Traceback) :
  QueryTimer.request_status self <> "" ->
  QueryTimer.request_status self <> QueryStatus.success ->
  let after :=
    fst (QueryTimer.__exit__ now self (Some exc_type) exc_value traceback) in
  QueryTimer.request_status after = QueryTimer.request_status self
  /\ QueryTimer.exception_name after = format_exc_name exc_type
  /\ after
     = QueryTimer.set_exception_name (format_exc_name exc_type)
         (QueryTimer.set_base
            (BaseTimer.__exit__ now (QueryTimer.base self)) self).
Proof.
  intros Hset Hnot after. subst after.
  rewrite exit_with_status_set
    by (apply status_already_set_spec; split; assumption).
  repeat split.
Qed.

Lemma exit_keeps_status_already_set_witness :
  QueryTimer.request_status
    (fst (QueryTimer.__exit__ 7
            (QueryTimer.set_request_status QueryStatus.timeout
               (QueryTimer.__init__ (Some 0) "get" "repo" None))
            (Some (exc_class ValueError)) (Some ValueError) (Some [])))
  = QueryStatus.timeout.
Proof.
  apply (exit_keeps_status_already_set 7
           (QueryTimer.set_request_status QueryStatus.timeout
              (QueryTimer.__init__ (Some 0) "get" "repo" None))
           (exc_class ValueError) (Some ValueError) (Some []));
    discriminate.
Defined.

(** C9: on every path [QueryTimer.__exit__] returns [False], so the
    [with] statement lets the exception of the wrapped operation
    propagate. *)
Theorem exit_never_suppresses (now : Z) (self : QueryTimer.t)
    (exc_type : option PyClass) (exc_value : option PyExc)
    (traceback : option Traceback) :
  snd (QueryTimer.__exit__ now self exc_type exc_value traceback) = false.
Proof.
  destruct exc_type as [c |]; [| reflexivity].
  destruct (status_already_set (QueryTimer.request_status self)) eqn:Hset.
  - rewrite exit_with_status_set by exact Hset. reflexivity.
  - rewrite exit_classifies by exact Hset. reflexivity.
Qed.

Lemma timer_enter_request_status now f back self :
  QueryTimer.request_status (timer_enter now f back self)
  = QueryTimer.request_status self.
Proof.
  unfold timer_enter, ExecuteTimer.__enter__.
  destruct (QueryTimer.timer_class self); cbn;
    try destruct (_discover_caller _ _ _); reflexivity.
Qed.

Lemma timer_enter_exception_name now f back self :
  QueryTimer.exception_name (timer_enter now f back self)
  = QueryTimer.exception_name self.
Proof.
  unfold timer_enter, ExecuteTimer.__enter__.
  destruct (QueryTimer.timer_class self); cbn;
    try destruct (_discover_caller _ _ _); reflexivity.
Qed.

(** C3: a [TransactionTimer] starts with status [commit], which the guard
    of [__exit__] takes as already set: until [process_result] is called,
    an exit with any exception records the exception name and leaves the
    status at [commit].  For any timer whose status is set (not empty), an
    exit changes the status only when it was [success]. *)
Theorem transaction_timer_exit_keeps_commit
    (database : option nat) (function_name module_name : string)
    (ignores : option (list string)) (now : Z) (f : FrameType)
    (back : list FrameType) (now' : Z) (exc_type : PyClass)
    (exc_value : option PyExc) (traceback : option Traceback)
    (other : QueryTimer.t) :
  QueryTimer.request_status other <> "" ->
  let fresh :=
    TransactionTimer.__init__ database function_name module_name ignores in
  let entered := timer_enter now f back fresh in
  let exited :=
    fst (QueryTimer.__exit__ now' entered (Some exc_type) exc_value traceback) in
  QueryTimer.request_status fresh = TransactionStatus.commit
  /\ status_already_set (QueryTimer.request_status entered) = true
  /\ QueryTimer.request_status exited = TransactionStatus.commit
  /\ QueryTimer.exception_name exited = format_exc_name exc_type
  /\ (QueryTimer.request_status
        (fst (QueryTimer.__exit__ now' other (Some exc_type) exc_value
                traceback))
      <> QueryTimer.request_status other ->
      QueryTimer.request_status other = QueryStatus.success).
Proof.
  intros Hset fresh entered exited.
  assert (Hentered : QueryTimer.request_status entered = TransactionStatus.commit).
  { subst entered. rewrite timer_enter_request_status. reflexivity. }
  assert (Hguard : status_already_set (QueryTimer.request_status entered) = true).
  { rewrite Hentered. reflexivity. }
  split; [reflexivity | split; [exact Hguard |]].
  split; [| split].
  - subst exited. rewrite (exit_with_status_set _ _ _ _ _ Hguard).
    exact Hentered.
  - subst exited. rewrite (exit_with_status_set _ _ _ _ _ Hguard).
    reflexivity.
  - intros Hchanged.
    destruct (status_already_set (QueryTimer.request_status other)) eqn:Hother.
    + rewrite (exit_with_status_set _ _ _ _ _ Hother) in Hchanged.
      cbn in Hchanged. congruence.
    + destruct (String.eqb_spec (QueryTimer.request_status other)
                  QueryStatus.success) as [Heq | Hne]; [exact Heq |].
      assert (status_already_set (QueryTimer.request_status other) = true)
        by (apply status_already_set_spec; split; assumption).
      congruence.
Qed.

Lemma transaction_timer_exit_keeps_commit_witness :
  QueryTimer.request_status
    (fst (QueryTimer.__exit__ 9
            (timer_enter 3 {| f_globals_name := Some __name__;
                              co_name := "_discover_caller" |}
               [{| f_globals_name := Some "app.payin.repository";
                   co_name := "create_payment" |}]
               (TransactionTimer.__init__ (Some 0) "" ""
                  (Some ["app.commons.database"])))
            (Some (exc_class QueryCanceled)) (Some QueryCanceled) (Some [])))
  = TransactionStatus.commit.
Proof.
  refine (proj1 (proj2 (proj2
    (transaction_timer_exit_keeps_commit (Some 0) "" ""
       (Some ["app.commons.database"]) 3
       {| f_globals_name := Some __name__; co_name := "_discover_caller" |}
       [{| f_globals_name := Some "app.payin.repository";
           co_name := "create_payment" |}]
       9 (exc_class QueryCanceled) (Some QueryCanceled) (Some [])
       (QueryTimer.__init__ None "" "" None) _)))).
  discriminate.
Defined.

(** ** Caller discovery *)

Lemma last_cons_default {A} (a d : A) (l : list A) :
  List.last (a :: l) d = List.last l a.
Proof.
  revert a d. induction l as [| b l IH]; intros a d; [reflexivity |].
  change (List.last (a :: b :: l) d) with (List.last (b :: l) d).
  rewrite (IH b d), (IH b a). reflexivity.
Qed.

Lemma discover_loop_finds ignores back : forall f,
  discover_loop ignores f back (frame_name f)
  = match List.find (fun fr => negb (ignored ignores (frame_name fr)))
            (f :: back) with
    | Some fr => (fr, frame_name fr)
    | None => (List.last back f, "?")
    end.
Proof.
  induction back as [| f' back IH]; intros f; cbn [discover_loop List.find].
  - destruct (ignored ignores (frame_name f)); reflexivity.
  - destruct (ignored ignores (frame_name f)) eqn:Hf; cbn [negb].
    + rewrite IH. cbn [List.find]. rewrite last_cons_default. reflexivity.
    + reflexivity.
Qed.

(** C7: walking outward from the current frame, [_discover_caller]
    returns the first frame whose module name starts with none of the
    ignored prefixes, with that name; when every frame up to the root is
    ignored it returns the root frame with the name ["?"].  The walk is a
    structural recursion on the chain of parent frames, so it ends and
    raises nothing. *)
Theorem discover_caller_first_frame_not_ignored
    (additional_ignores : option (list string)) (f : FrameType)
    (back : list FrameType) :
  _discover_caller additional_ignores f back
  = match List.find
            (fun fr =>
               negb (ignored (discover_ignores additional_ignores)
                       (frame_name fr)))
            (f :: back) with
    | Some fr => (fr, frame_name fr)
    | None => (List.last back f, "?")
    end.
Proof. apply discover_loop_finds. Qed.

(** ** The delivery callback of the producer *)

Section Delivery.

Import KafkaMessageProducer.

Lemma create_future_pending loop :
  futures (snd (create_future loop)) !! fst (create_future loop) = Some pending.
Proof. cbn. apply list_lookup_middle. reflexivity. Qed.

Lemma run_handle_pending loop result h state :
  futures loop !! result = Some pending ->
  h = set_result result
        (match state with finished m => m | _ => None end)
    /\ (exists m, state = finished m)
  \/ (exists e, h = set_exception result e /\ state = failed e) ->
  exists loop',
    run_handle h loop = Some loop'
    /\ futures loop' !! result = Some state
    /\ _ready loop' = _ready loop.
Proof.
  intros Hpending Hh.
  assert (Hlt : result < length (futures loop))
    by (eapply lookup_lt_Some; exact Hpending).
  destruct Hh as [[-> [m ->]] | [e [-> ->]]]; unfold run_handle;
    rewrite Hpending; eexists; (split; [reflexivity |]); cbn;
    (split; [apply list_lookup_insert_eq; exact Hlt | reflexivity]).
Qed.

End Delivery.

(** C6: the future [produce] returns is pending.  A delivery callback with
    no error schedules on the loop exactly one call, [set_result] with the
    message, and one with an error schedules exactly one call,
    [set_exception] with the [KafkaException] made from the error; the
    callback itself leaves every future untouched, and the future is
    resolved when the loop makes the call. *)
Theorem delivery_callback_schedules_resolution
    (self : KafkaMessageProducer.t) (topic value : string) :
  let result := fst (KafkaMessageProducer.produce self topic value) in
  let loop :=
    KafkaMessageProducer._loop
      (snd (KafkaMessageProducer.produce self topic value)) in
  KafkaMessageProducer.futures loop !! result
  = Some KafkaMessageProducer.pending
  /\ (forall msg,
        let scheduled := KafkaMessageProducer.ack result None msg loop in
        KafkaMessageProducer.futures scheduled
        = KafkaMessageProducer.futures loop
        /\ KafkaMessageProducer._ready scheduled
           = KafkaMessageProducer._ready loop
               ++ [KafkaMessageProducer.set_result result msg]
        /\ exists loop',
             KafkaMessageProducer.run_handle
               (KafkaMessageProducer.set_result result msg) scheduled
             = Some loop'
             /\ KafkaMessageProducer.futures loop' !! result
                = Some (KafkaMessageProducer.finished msg))
  /\ (forall err msg,
        let scheduled := KafkaMessageProducer.ack result (Some err) msg loop in
        KafkaMessageProducer.futures scheduled
        = KafkaMessageProducer.futures loop
        /\ KafkaMessageProducer._ready scheduled
           = KafkaMessageProducer._ready loop
               ++ [KafkaMessageProducer.set_exception result
                     (KafkaMessageProducer.mkKafkaException err)]
        /\ exists loop',
             KafkaMessageProducer.run_handle
               (KafkaMessageProducer.set_exception result
                  (KafkaMessageProducer.mkKafkaException err)) scheduled
             = Some loop'
             /\ KafkaMessageProducer.futures loop' !! result
                = Some (KafkaMessageProducer.failed
                          (KafkaMessageProducer.mkKafkaException err))).
Proof.
  intros result loop.
  assert (Hpending :
    KafkaMessageProducer.futures loop !! result
    = Some KafkaMessageProducer.pending).
  { subst result loop. unfold KafkaMessageProducer.produce.
    pose proof (create_future_pending (KafkaMessageProducer._loop self)) as H.
    destruct (KafkaMessageProducer.create_future
                (KafkaMessageProducer._loop self)) as [r l].
    exact H. }
  split; [exact Hpending | split].
  - intros msg scheduled.
    split; [reflexivity | split; [reflexivity |]].
    destruct (run_handle_pending scheduled result
                (KafkaMessageProducer.set_result result msg)
                (KafkaMessageProducer.finished msg) Hpending)
      as (loop' & Hrun & Hres & _).
    { left. split; [reflexivity | eexists; reflexivity]. }
    exists loop'. split; assumption.
  - intros err msg scheduled.
    split; [reflexivity | split; [reflexivity |]].
    destruct (run_handle_pending scheduled result
                (KafkaMessageProducer.set_exception result
                   (KafkaMessageProducer.mkKafkaException err))
                (KafkaMessageProducer.failed
                   (KafkaMessageProducer.mkKafkaException err)) Hpending)
      as (loop' & Hrun & Hres & _).
    { right. eexists. split; reflexivity. }
    exists loop'. split; assumption.
Qed.

(** ** The phases of a tracked transaction *)

Lemma snoc_lookup_total {A} `{Inhabited A} (l : list A) (x : A) :
  (l ++ [x]) !!! length l = x.
Proof. apply list_lookup_total_middle. reflexivity. Qed.

Lemma snoc_insert {A} (l : list A) (x y : A) :
  <[length l := y]> (l ++ [x]) = l ++ [y].
Proof.
  rewrite insert_app_r_alt by reflexivity.
  rewrite Nat.sub_diag. reflexivity.
Qed.

Lemma releases_emit e w :
  releases (emit e w) = releases w ++ (if is_release e then [e] else []).
Proof.
  unfold releases, emit. cbn [events]. rewrite List.filter_app. cbn.
  destruct (is_release e); reflexivity.
Qed.


Section Phases.

Import TransactionTimingManager.

Variable self : QueryTimingManager.

(** A processor adds a record to the events and changes nothing else. *)
Lemma log_transaction_timing_frame timer w :
  unreleased w (log_transaction_timing self timer w).
Proof.
  unfold log_transaction_timing, unreleased.
  destruct (QueryTimer.database (timers w !!! timer)) as [db |];
    [| repeat split].
  destruct (negb (is_Database (objects w !!! db))); [repeat split |].
  cbn zeta. rewrite releases_emit. cbn. rewrite app_nil_r. repeat split.
Qed.

Lemma stat_transaction_timing_frame timer w :
  unreleased w (stat_transaction_timing self timer w).
Proof.
  unfold stat_transaction_timing, _stat_query_timing, unreleased.
  destruct (QueryTimer.database (timers w !!! timer)) as [db |];
    [| repeat split].
  destruct (negb (is_Database (objects w !!! db))); [repeat split |].
  cbn zeta. rewrite releases_emit. cbn. rewrite app_nil_r. repeat split.
Qed.

Lemma unreleased_trans w1 w2 w3 :
  unreleased w1 w2 -> unreleased w2 w3 -> unreleased w1 w3.
Proof.
  unfold unreleased. intros (?&?&?&?&?) (?&?&?&?&?).
  repeat split; congruence.
Qed.

(** The tracker's exit processing returns, and touches neither the
    objects nor the exit stacks. *)
Lemma exit_tracker_frame tracker result w :
  fst (_exit_tracker self tracker result w) = Returned tt
  /\ unreleased w (snd (_exit_tracker self tracker result w)).
Proof.
  split; [reflexivity |].
  unfold _exit_tracker, lift, processors. cbn [snd fold_left].
  eapply unreleased_trans; [| apply stat_transaction_timing_frame].
  eapply unreleased_trans; [| apply log_transaction_timing_frame].
  repeat split.
Qed.





End Phases.

Section ActivePhases.

Import TransactionTimingManager.

Variable self : QueryTimingManager.

Lemma start_spec obj f back w :
  obj < length (objects w) ->
  let tracker := length (timers w) in
  let stack := length (stacks w) in
  let r := start self obj f back w in
  fst r = Returned tracker
  /\ attr_tracker (objects (snd r) !!! obj) = Some (Some tracker)
  /\ attr_stack (objects (snd r) !!! obj) = Some (Some stack)
  /\ length (objects (snd r)) = length (objects w)
  /\ stacks (snd r)
     = stacks w ++ [[exit_of_timer tracker; exit_of_breadcrumb (BREADCRUMB w)]]
  /\ events (snd r) = events w.
Proof.
  intros Hlt tracker stack. unfold start, ExitStack.__init__, _start_tracker,
    enter_breadcrumb, ExitStack.push, perf_counter, assign_stack, assign_tracker.
  cbn.
  rewrite !list_lookup_total_insert_eq
    by (rewrite ?length_insert; exact Hlt).
  cbn. rewrite !length_insert.
  rewrite !snoc_lookup_total.
  repeat split.
  rewrite (snoc_insert (stacks w)), snoc_lookup_total.
  rewrite (snoc_insert (stacks w)). reflexivity.
Qed.


Lemma error_active exc_type exc_value traceback obj tracker stack w :
  attr_tracker (objects w !!! obj) = Some (Some tracker) ->
  attr_stack (objects w !!! obj) = Some (Some stack) ->
  error self exc_type exc_value traceback obj w
  = (let w' := snd (_exit_tracker self tracker "error" w) in
     (Returned tt,
      snd (ExitStack.__exit__ stack exc_type exc_value traceback w'))).
Proof.
  intros Htracker Hstack.
  pose proof (exit_tracker_frame self tracker "error" w) as (_ & Hframe).
  destruct Hframe as (_ & Hobjects & _).
  unfold error, bind, get_tracker, get_stack. rewrite Htracker.
  destruct (_exit_tracker self tracker "error" w) as [r w'] eqn:Hexit.
  cbn [snd] in *.
  assert (r = Returned tt) as ->.
  { change r with (fst (r, w')). rewrite <- Hexit. reflexivity. }
  rewrite Hobjects, Hstack. unfold ExitStack.__exit__, ret.
  destruct (ExitStack.unwind _ _ _ _ _ _ _). reflexivity.
Qed.



End ActivePhases.

Section Wrappers.

Import TransactionTimingManager.

Variable self : QueryTimingManager.

(** On a tracked transaction the error phase returns. *)
Lemma error_returns exc_type exc_value traceback obj w :
  is_TrackedTransaction (objects w !!! obj) = true ->
  fst (error self exc_type exc_value traceback obj w) = Returned tt.
Proof.
  unfold is_TrackedTransaction. rewrite andb_true_iff, !bool_decide_eq_true.
  intros [[tracker Htracker] [stack Hstack]].
  unfold error, bind, get_tracker, get_stack. rewrite Htracker.
  destruct tracker as [tracker |].
  - pose proof (exit_tracker_frame self tracker "error" w)
      as (Hret & _ & Hobjects & _).
    destruct (_exit_tracker self tracker "error" w) as [r w'].
    cbn [fst snd] in *. subst r. rewrite Hobjects, Hstack.
    destruct stack as [stack |]; [| reflexivity].
    unfold ExitStack.__exit__. destruct (ExitStack.unwind _ _ _ _ _ _ _).
    reflexivity.
  - unfold ret. rewrite Hstack.
    destruct stack as [stack |]; [| reflexivity].
    unfold ExitStack.__exit__. destruct (ExitStack.unwind _ _ _ _ _ _ _).
    reflexivity.
Qed.

Lemma route_to_error_tracked {A} obj e w :
  is_TrackedTransaction (objects w !!! obj) = true ->
  route_to_error (A := A) self obj e w
  = (Raised e,
     snd (error self (Some (exc_class e)) (Some e) (Some (exc_traceback e))
            obj w)).
Proof.
  intros Htracked. unfold route_to_error, exc_info, bind.
  pose proof (error_returns (Some (exc_class e)) (Some e)
                (Some (exc_traceback e)) obj w Htracked) as Hret.
  destruct (error self _ _ _ obj w) as [r w']. cbn [fst snd] in *.
  subst r. reflexivity.
Qed.

(** When the wrapped start operation raises [e] and the receiver is a
    tracked transaction, the wrapper runs the error phase once, on the
    store the operation left, and raises [e] again. *)
Lemma track_start_routes_failure_to_error {A} (func : list nat -> M A)
    f back obj rest w e w_failed :
  func (obj :: rest)
    (if is_TrackedTransaction (objects w !!! obj)
     then snd (start self obj f back w) else w)
  = (Raised e, w_failed) ->
  is_TrackedTransaction (objects w_failed !!! obj) = true ->
  track_start self func f back (obj :: rest) w
  = (Raised e,
     snd (error self (Some (exc_class e)) (Some e) (Some (exc_traceback e))
            obj w_failed)).
Proof.
  intros Hfunc Htracked.
  unfold track_start, first_arg, bind, ret, try_except at 1.
  destruct (is_TrackedTransaction (objects w !!! obj)).
  - unfold start at 1. unfold start in Hfunc.
    destruct (ExitStack.__init__ w) as [stack w1].
    destruct (_start_tracker self stack obj f back (assign_stack obj (Some stack) w1))
      as [tracker w2].
    cbn [snd] in Hfunc. unfold try_except. rewrite Hfunc.
    apply route_to_error_tracked. exact Htracked.
  - unfold try_except. rewrite Hfunc.
    apply route_to_error_tracked. exact Htracked.
Qed.

(** When the wrapped commit operation raises [e], the commit phase is not
    reached: the wrapper runs the error phase and raises [e] again. *)
Lemma track_commit_routes_failure_to_error {A} (func : list nat -> M A)
    obj rest w e w_failed :
  func (obj :: rest) w = (Raised e, w_failed) ->
  is_TrackedTransaction (objects w_failed !!! obj) = true ->
  track_commit self func (obj :: rest) w
  = (Raised e,
     snd (error self (Some (exc_class e)) (Some e) (Some (exc_traceback e))
            obj w_failed)).
Proof.
  intros Hfunc Htracked.
  unfold track_commit, try_except, bind. rewrite Hfunc.
  unfold first_arg, ret. apply route_to_error_tracked. exact Htracked.
Qed.

End Wrappers.

(** C5: an object without the attributes of a tracked transaction reaches
    the wrapped operation (the wrappers skip [start] and [commit] for it),
    but when the operation raises, the error phase reads [obj.tracker] and
    raises [AttributeError]; that exception, not the [ValueError] of the
    operation, leaves the wrapper. *)
Theorem wrappers_mask_failure_of_untracked_object :
  fst (TransactionTimingManager.track_start sample_manager failing_operation
         sample_frame sample_back [0] (sample_world untracked_object))
  = Raised (AttributeError "tracker")
  /\ fst (TransactionTimingManager.track_commit sample_manager
            failing_operation [0] (sample_world untracked_object))
     = Raised (AttributeError "tracker")
  /\ Raised (A := unit) (AttributeError "tracker") <> Raised ValueError.
Proof.
  split; [reflexivity | split; [reflexivity | discriminate]].
Qed.

(** C8: on an idle entity, whose tracker and stack are both [None], the
    commit, rollback and error phases return and leave the store as it
    is. *)
Theorem idle_phases_change_nothing (self : QueryTimingManager) (obj : nat)
    (w : World) (exc_type : option PyClass) (exc_value : option PyExc)
    (traceback : option Traceback) :
  attr_tracker (objects w !!! obj) = Some None ->
  attr_stack (objects w !!! obj) = Some None ->
  TransactionTimingManager.commit self obj w = (Returned tt, w)
  /\ TransactionTimingManager.rollback self exc_type exc_value traceback obj w
     = (Returned tt, w)
  /\ TransactionTimingManager.error self exc_type exc_value traceback obj w
     = (Returned tt, w).
Proof.
  intros Htracker Hstack.
  unfold TransactionTimingManager.commit, TransactionTimingManager.rollback,
    TransactionTimingManager.error, bind, get_tracker, get_stack, ret.
  rewrite Htracker, Hstack. repeat split.
Qed.

Lemma idle_phases_change_nothing_witness :
  TransactionTimingManager.commit sample_manager 0
    (sample_world idle_transaction)
  = (Returned tt, sample_world idle_transaction).
Proof.
  apply (idle_phases_change_nothing sample_manager 0
           (sample_world idle_transaction) None None None);
    reflexivity.
Defined.




(** * Further properties *)

(** ** The timer across several exits *)

Lemma exit_leaves_status_set now self exc_type exc_value traceback :
  status_already_set
    (QueryTimer.request_status
       (fst (QueryTimer.__exit__ now self (Some exc_type) exc_value traceback)))
  = true.
Proof.
  destruct (status_already_set (QueryTimer.request_status self)) eqn:Hset.
  - rewrite exit_with_status_set by exact Hset. exact Hset.
  - rewrite exit_classifies by exact Hset. cbn.
    destruct (isinstance exc_value known_timeout_errors); reflexivity.
Qed.

(** X1: the first exit with an exception settles the status: whatever the
    status was before, no later exit of the same timer, with or without
    an exception, changes it again. *)
Theorem exit_status_settled_by_first_exception (now1 : Z)
    (self : QueryTimer.t) (exc_type1 : PyClass) (exc_value1 : option PyExc)
    (traceback1 : option Traceback) (now2 : Z) (exc_type2 : option PyClass)
    (exc_value2 : option PyExc) (traceback2 : option Traceback) :
  let first :=
    fst (QueryTimer.__exit__ now1 self (Some exc_type1) exc_value1
           traceback1) in
  QueryTimer.request_status
    (fst (QueryTimer.__exit__ now2 first exc_type2 exc_value2 traceback2))
  = QueryTimer.request_status first.
Proof.
  intros first.
  pose proof (exit_leaves_status_set now1 self exc_type1 exc_value1 traceback1)
    as Hset.
  fold first in Hset.
  destruct exc_type2 as [exc_type2 |].
  - rewrite exit_with_status_set by exact Hset. reflexivity.
  - rewrite exit_without_exception. reflexivity.
Qed.

(** X2: an exit changes nothing of a timer but its outcome: the class,
    the database, the ignores, the caller's names and frame and the start
    of the span are kept, and the end of the span is set to the time of
    the exit, with or without an exception. *)
Theorem exit_keeps_identity_sets_end (now : Z) (self : QueryTimer.t)
    (exc_type : option PyClass) (exc_value : option PyExc)
    (traceback : option Traceback) :
  let after :=
    fst (QueryTimer.__exit__ now self exc_type exc_value traceback) in
  QueryTimer.timer_class after = QueryTimer.timer_class self
  /\ QueryTimer.database after = QueryTimer.database self
  /\ QueryTimer.additional_ignores after = QueryTimer.additional_ignores self
  /\ QueryTimer.calling_module_name after = QueryTimer.calling_module_name self
  /\ QueryTimer.calling_function_name after
     = QueryTimer.calling_function_name self
  /\ QueryTimer.stack_frame after = QueryTimer.stack_frame self
  /\ BaseTimer.start_counter (QueryTimer.base after)
     = BaseTimer.start_counter (QueryTimer.base self)
  /\ BaseTimer.end_counter (QueryTimer.base after) = Some now.
Proof.
  intros after. subst after.
  destruct exc_type as [c |]; [| repeat split].
  destruct (status_already_set (QueryTimer.request_status self)) eqn:Hset.
  - rewrite exit_with_status_set by exact Hset. repeat split.
  - rewrite exit_classifies by exact Hset. repeat split.
Qed.

(** X3: the classification reads the exception value, not the exception
    type: for a timer whose status is not yet set, an exit whose
    [exc_value] is [None] gives [error] whatever [exc_type] is, and an
    exit whose [exc_value] has one of the four timeout classes anywhere
    among its base classes gives [timeout] whatever [exc_type] is. *)
Theorem exit_classifies_by_value_not_type (now : Z) (self : QueryTimer.t)
    (exc_type : PyClass) (traceback : option Traceback) :
  status_already_set (QueryTimer.request_status self) = false ->
  QueryTimer.request_status
    (fst (QueryTimer.__exit__ now self (Some exc_type) None traceback))
  = QueryStatus.error
  /\ forall e base,
       In base (mro (exc_class e)) ->
       In base known_timeout_errors ->
       QueryTimer.request_status
         (fst (QueryTimer.__exit__ now self (Some exc_type) (Some e)
                 traceback))
       = QueryStatus.timeout.
Proof.
  intros Hset. split.
  - rewrite exit_classifies by exact Hset. reflexivity.
  - intros e base Hmro Hknown.
    rewrite exit_classifies by exact Hset.
    assert (isinstance (Some e) known_timeout_errors = true) as ->.
    { unfold isinstance. apply existsb_exists. exists base.
      split; [exact Hmro |].
      apply existsb_exists. exists base.
      split; [exact Hknown | apply String.eqb_refl]. }
    reflexivity.
Qed.

Lemma exit_classifies_by_value_not_type_witness :
  QueryTimer.request_status
    (fst (QueryTimer.__exit__ 5 (QueryTimer.__init__ None "get" "repo" None)
            (Some (exc_class QueryCanceled)) None None))
  = QueryStatus.error.
Proof.
  refine (proj1 (exit_classifies_by_value_not_type 5
                   (QueryTimer.__init__ None "get" "repo" None)
                   (exc_class QueryCanceled) None _)).
  reflexivity.
Defined.

(** X4: the status a transaction timer is given by [process_result]
    outlives the exit: when the result is neither empty nor [success] (as
    [commit], [rollback] and [error] are), the exit that follows leaves
    the status at that result, whatever exception it is given. *)
Theorem process_result_outlives_exit (now : Z) (self : QueryTimer.t)
    (result : string) (exc_type : option PyClass) (exc_value : option PyExc)
    (traceback : option Traceback) :
  result <> "" ->
  result <> QueryStatus.success ->
  QueryTimer.request_status
    (fst (QueryTimer.__exit__ now
            (TransactionTimer.process_result result self)
            exc_type exc_value traceback))
  = result.
Proof.
  intros Hset Hnot.
  destruct exc_type as [c |]; [| reflexivity].
  rewrite exit_with_status_set; [reflexivity |].
  apply status_already_set_spec. split; assumption.
Qed.

Lemma process_result_outlives_exit_witness :
  QueryTimer.request_status
    (fst (QueryTimer.__exit__ 8
            (TransactionTimer.process_result TransactionStatus.rollback
               (TransactionTimer.__init__ (Some 0) "" "" None))
            (Some (exc_class QueryCanceled)) (Some QueryCanceled) (Some [])))
  = TransactionStatus.rollback.
Proof.
  apply (process_result_outlives_exit 8
           (TransactionTimer.__init__ (Some 0) "" "" None)
           TransactionStatus.rollback (Some (exc_class QueryCanceled))
           (Some QueryCanceled) (Some []));
    discriminate.
Defined.

(** ** Caller discovery *)

Lemma find_not_ignored_in ignores frames fr :
  List.find (fun fr => negb (ignored ignores (frame_name fr))) frames = Some fr ->
  In fr frames /\ ignored ignores (frame_name fr) = false.
Proof.
  intros Hfind. apply List.find_some in Hfind as [Hin Hneg].
  split; [exact Hin |]. apply negb_true_iff. exact Hneg.
Qed.

Lemma last_in_chain {A} (l : list A) (d : A) : In (List.last l d) (d :: l).
Proof.
  revert d. induction l as [| a l IH]; intros d; [left; reflexivity |].
  rewrite last_cons_default. right. apply IH.
Qed.

(** X5: the frame [_discover_caller] returns is one of the chain it was
    given, and the name it returns is either the unknown sentinel ["?"] or
    the name of that frame, which then starts with none of the ignored
    prefixes: this module, the tracing module, contextlib and the
    additional ignores are never named as the caller. *)
Theorem discover_caller_names_no_ignored_module
    (additional_ignores : option (list string)) (f : FrameType)
    (back : list FrameType) :
  let r := _discover_caller additional_ignores f back in
  In (fst r) (f :: back)
  /\ (snd r = "?"
      \/ (snd r = frame_name (fst r)
          /\ ignored (discover_ignores additional_ignores) (snd r) = false)).
Proof.
  intros r. subst r. unfold _discover_caller. rewrite discover_loop_finds.
  destruct (List.find _ (f :: back)) as [fr |] eqn:Hfind.
  - apply find_not_ignored_in in Hfind as [Hin Hnot]. cbn [fst snd].
    split; [exact Hin | right; split; [reflexivity | exact Hnot]].
  - cbn [fst snd]. split; [apply last_in_chain | left; reflexivity].
Qed.

Lemma ignored_by_empty_prefix ignores name :
  In "" ignores -> ignored ignores name = true.
Proof.
  intros Hin. unfold ignored. apply existsb_exists.
  exists "". split; [exact Hin |]. destruct name; reflexivity.
Qed.

(** X6: an empty string among the additional ignores is a prefix of every
    module name, so every frame is skipped: the walk runs to the root of
    the chain and the caller is reported as unknown. *)
Theorem discover_caller_empty_ignore_hides_all
    (additional_ignores : list string) (f : FrameType)
    (back : list FrameType) :
  In "" additional_ignores ->
  _discover_caller (Some additional_ignores) f back = (List.last back f, "?").
Proof.
  intros Hin. unfold _discover_caller. rewrite discover_loop_finds.
  assert (Hall : forall name,
    ignored (discover_ignores (Some additional_ignores)) name = true).
  { intros name. apply ignored_by_empty_prefix.
    unfold discover_ignores. apply in_or_app. right. exact Hin. }
  destruct (List.find _ (f :: back)) as [fr |] eqn:Hfind; [| reflexivity].
  apply find_not_ignored_in in Hfind as [_ Hnot].
  rewrite Hall in Hnot. discriminate.
Qed.

Lemma discover_caller_empty_ignore_hides_all_witness :
  _discover_caller (Some ["app.commons.database"; ""]) sample_frame sample_back
  = (List.last sample_back sample_frame, "?").
Proof.
  apply (discover_caller_empty_ignore_hides_all
           ["app.commons.database"; ""] sample_frame sample_back).
  right. left. reflexivity.
Defined.

(** ** Entering a timer *)

(** X7: [ExecuteTimer.__enter__] takes the caller's names from the stack,
    not from the constructor: whatever names a timer was created with,
    after it is entered its module name is the one [_discover_caller]
    finds with the timer's additional ignores, its function name is that
    frame's, the start of the span is recorded, and the status, the
    exception name and the database are as they were. *)
Theorem execute_timer_names_come_from_stack (now : Z) (f : FrameType)
    (back : list FrameType) (self : QueryTimer.t) :
  let entered := ExecuteTimer.__enter__ now f back self in
  let found := _discover_caller (QueryTimer.additional_ignores self) f back in
  QueryTimer.calling_module_name entered = snd found
  /\ QueryTimer.calling_function_name entered = co_name (fst found)
  /\ QueryTimer.stack_frame entered = Some (fst found)
  /\ QueryTimer.request_status entered = QueryTimer.request_status self
  /\ QueryTimer.exception_name entered = QueryTimer.exception_name self
  /\ QueryTimer.database entered = QueryTimer.database self
  /\ BaseTimer.start_counter (QueryTimer.base entered) = Some now.
Proof.
  intros entered found. subst entered found.
  unfold ExecuteTimer.__enter__. cbn.
  destruct (_discover_caller _ f back) as [frame name]. repeat split.
Qed.

(** X8: a tracker made for [track_query] is a plain [QueryTimer]: entering
    it does not walk the stack, so it keeps the name and the module of the
    wrapped function; one made by [ExecuteTimingManager] starts without
    names and takes both from the first frame that is not ignored. *)
Theorem query_tracker_keeps_names_execute_discovers
    (func_name func_module : string) (obj : option nat) (now : Z)
    (f : FrameType) (back : list FrameType) :
  let query :=
    timer_enter now f back
      (QueryTimingManager_create_tracker
         (track_query_manager func_name func_module) obj) in
  let execute :=
    timer_enter now f back
      (ExecuteTimingManager_create_tracker track_execute_manager obj) in
  let found := _discover_caller (Some ["app.commons.database"]) f back in
  QueryTimer.calling_function_name query = func_name
  /\ QueryTimer.calling_module_name query = func_module
  /\ QueryTimer.stack_frame query = None
  /\ QueryTimer.calling_function_name execute = co_name (fst found)
  /\ QueryTimer.calling_module_name execute = snd found
  /\ QueryTimer.request_status query = QueryStatus.success
  /\ QueryTimer.request_status execute = QueryStatus.success.
Proof.
  intros query execute found. subst query execute found.
  unfold timer_enter, ExecuteTimer.__enter__. cbn.
  destruct (_discover_caller _ f back) as [frame name]. repeat split.
Qed.

(** ** The processors *)

Lemma dict_get_set_eq key value d :
  dict_get key (dict_set key value d) = Some value.
Proof.
  induction d as [| [k v] d IH]; cbn.
  - rewrite String.eqb_refl. reflexivity.
  - destruct (String.eqb k key) eqn:Hk; cbn; rewrite Hk; [reflexivity | exact IH].
Qed.

Lemma dict_get_set_ne key key' value d :
  key' <> key ->
  dict_get key' (dict_set key value d) = dict_get key' d.
Proof.
  intros Hne. induction d as [| [k v] d IH]; cbn.
  - destruct (String.eqb_spec key key'); [congruence | reflexivity].
  - destruct (String.eqb_spec k key) as [-> | Hk]; cbn.
    + destruct (String.eqb_spec key key'); [congruence | reflexivity].
    + destruct (String.eqb k key'); [reflexivity | exact IH].
Qed.

(** A key that is not asked for is not in the dict of a breadcrumb. *)
Lemma breadcrumb_dict_only_included include b key :
  existsb (String.eqb key) include = false ->
  dict_get key (breadcrumb_dict include b) = None.
Proof.
  intros Hnot. unfold breadcrumb_dict.
  assert (Hkey : forall k (v : string) rest,
    dict_get key
      (if existsb (String.eqb k) include && truthy v
       then (k, v) :: rest else rest)
    = dict_get key rest).
  { intros k v rest.
    destruct (existsb (String.eqb k) include) eqn:Hk; [| reflexivity].
    destruct (truthy v); [| reflexivity]. cbn.
    destruct (String.eqb_spec k key) as [-> | _]; [congruence | reflexivity]. }
  cbn [List.filter fst snd]. rewrite !Hkey. reflexivity.
Qed.

(** X9: a processor given a timer whose database does not have both
    [database_name] and [instance_name] (or has no database at all)
    returns without a trace: the two transaction processors and the query
    stats processor leave the store as it is, and the query logger logs
    nothing. *)
Theorem processors_skip_timer_without_database (tracker : QueryTimingManager)
    (timer : nat) (w : World) :
  timer_has_database w timer = false ->
  log_transaction_timing tracker timer w = w
  /\ stat_transaction_timing tracker timer w = w
  /\ stat_query_timing tracker timer w = w
  /\ log_query_timing tracker timer w = None.
Proof.
  unfold timer_has_database, log_transaction_timing, stat_transaction_timing,
    stat_query_timing, _stat_query_timing, log_query_timing.
  destruct (QueryTimer.database (timers w !!! timer)) as [db |];
    [| repeat split].
  intros ->. repeat split.
Qed.

Lemma processors_skip_timer_without_database_witness :
  log_transaction_timing sample_manager 0
    (snd (TransactionTimingManager.start sample_manager 0 sample_frame
            sample_back (sample_world untracked_object)))
  = snd (TransactionTimingManager.start sample_manager 0 sample_frame
           sample_back (sample_world untracked_object)).
Proof.
  refine (proj1 (processors_skip_timer_without_database sample_manager 0
                   (snd (TransactionTimingManager.start sample_manager 0
                           sample_frame sample_back
                           (sample_world untracked_object))) _)).
  reflexivity.
Defined.

(** X10: for a timer of a database, [log_transaction_timing] hands the
    logger exactly one record and changes nothing else; the record has the
    manager's message and the timer's function name, its database dict
    always carries the timer's [request_status], even an empty one, and
    carries [exception_name] exactly when the timer has a non-empty
    one; [module_name] is among the caller's keys exactly when the timer
    has a non-empty module name. *)
Theorem log_transaction_record (tracker : QueryTimingManager) (timer : nat)
    (w : World) :
  timer_has_database w timer = true ->
  let t := timers w !!! timer in
  exists database caller,
    log_transaction_timing tracker timer w
    = emit (log_info (message tracker) (QueryTimer.calling_function_name t)
              database caller) w
    /\ dict_get "request_status" database = Some (QueryTimer.request_status t)
    /\ dict_get "exception_name" database
       = (if truthy (QueryTimer.exception_name t)
          then Some (QueryTimer.exception_name t) else None)
    /\ dict_get "module_name" caller
       = (if truthy (QueryTimer.calling_module_name t)
          then Some (QueryTimer.calling_module_name t) else None).
Proof.
  intros Hdb. cbv zeta. revert Hdb.
  unfold timer_has_database, log_transaction_timing. intros Hdb.
  destruct (QueryTimer.database (timers w !!! timer)) as [db |];
    [| discriminate].
  rewrite Hdb. cbn [negb]. eexists. eexists. split; [reflexivity |].
  split; [| split].
  - destruct (truthy (QueryTimer.exception_name (timers w !!! timer)));
      reflexivity.
  - destruct (truthy (QueryTimer.exception_name (timers w !!! timer)));
      reflexivity.
  - destruct (truthy (QueryTimer.calling_module_name (timers w !!! timer))).
    + apply dict_get_set_eq.
    + apply breadcrumb_dict_only_included. reflexivity.
Qed.

Lemma log_transaction_record_witness :
  exists database caller,
    log_transaction_timing sample_manager 0
      (snd (TransactionTimingManager.start sample_manager 0 sample_frame
              sample_back (sample_world idle_transaction)))
    = emit (log_info "transaction complete" "create_payment" database caller)
        (snd (TransactionTimingManager.start sample_manager 0 sample_frame
                sample_back (sample_world idle_transaction)))
    /\ dict_get "request_status" database = Some "commit".
Proof.
  destruct (log_transaction_record sample_manager 0
              (snd (TransactionTimingManager.start sample_manager 0
                      sample_frame sample_back
                      (sample_world idle_transaction))) eq_refl)
    as (database & caller & Hlog & Hstatus & _).
  exists database, caller. split; [exact Hlog | exact Hstatus].
Defined.

(** X11: for a timer of a database, the stats processors hand the client
    one timing named ["io.db.latency"]; the transaction one always tags it
    [query_type = transaction] and the query one never has a [query_type]
    tag; both tag [request_status] with the timer's status unless it is
    empty, and [query_name] with the timer's function name unless it is
    empty. *)
Theorem stats_tags (tracker : QueryTimingManager) (timer : nat) (w : World) :
  timer_has_database w timer = true ->
  let t := timers w !!! timer in
  let expected (tags : list (string * string)) :=
    dict_get "request_status" tags
    = (if truthy (QueryTimer.request_status t)
       then Some (QueryTimer.request_status t) else None)
    /\ dict_get "query_name" tags
       = (if truthy (QueryTimer.calling_function_name t)
          then Some (QueryTimer.calling_function_name t) else None) in
  (exists tags,
     stat_transaction_timing tracker timer w
     = emit (stats_timing "io.db.latency" tags) w
     /\ dict_get "query_type" tags = Some "transaction"
     /\ expected tags)
  /\ (exists tags,
        stat_query_timing tracker timer w
        = emit (stats_timing "io.db.latency" tags) w
        /\ dict_get "query_type" tags = None
        /\ expected tags).
Proof.
  intros Hdb. cbv zeta. revert Hdb.
  unfold timer_has_database, stat_transaction_timing, stat_query_timing,
    _stat_query_timing.
  intros Hdb.
  destruct (QueryTimer.database (timers w !!! timer)) as [db |];
    [| discriminate].
  rewrite Hdb. cbn [negb truthy String.eqb].
  set (t := timers w !!! timer). set (o := objects w !!! db).
  split; eexists; (split; [reflexivity |]).
  - destruct (truthy (QueryTimer.calling_function_name t)),
      (truthy (default "" (attr_database_name o))),
      (truthy (default "" (attr_instance_name o))),
      (truthy (QueryTimer.request_status t));
      repeat split;
      repeat first
        [ rewrite dict_get_set_eq
        | rewrite dict_get_set_ne by discriminate
        | rewrite breadcrumb_dict_only_included by reflexivity ];
      reflexivity.
  - destruct (truthy (QueryTimer.calling_function_name t)),
      (truthy (default "" (attr_database_name o))),
      (truthy (default "" (attr_instance_name o))),
      (truthy (QueryTimer.request_status t));
      repeat split;
      repeat first
        [ rewrite dict_get_set_eq
        | rewrite dict_get_set_ne by discriminate
        | rewrite breadcrumb_dict_only_included by reflexivity ];
      reflexivity.
Qed.

Lemma stats_tags_witness :
  exists tags,
    stat_transaction_timing sample_manager 0
      (snd (TransactionTimingManager.start sample_manager 0 sample_frame
              sample_back (sample_world idle_transaction)))
    = emit (stats_timing "io.db.latency" tags)
        (snd (TransactionTimingManager.start sample_manager 0 sample_frame
                sample_back (sample_world idle_transaction)))
    /\ dict_get "query_type" tags = Some "transaction".
Proof.
  destruct (stats_tags sample_manager 0
              (snd (TransactionTimingManager.start sample_manager 0
                      sample_frame sample_back
                      (sample_world idle_transaction))) eq_refl)
    as ((tags & Hstat & Htype & _) & _).
  exists tags. split; [exact Hstat | exact Htype].
Defined.

(** X12: for a timer of a database, [log_query_timing] logs one record
    with the manager's message and the timer's function name; its database
    dict says [transaction] is true exactly when the ambient breadcrumb
    has a transaction name, always carries the timer's [request_status],
    and carries [exception_name] exactly when the timer has a non-empty
    one. *)
Theorem log_query_record (tracker : QueryTimingManager) (timer : nat)
    (w : World) :
  timer_has_database w timer = true ->
  let t := timers w !!! timer in
  exists record,
    log_query_timing tracker timer w = Some record
    /\ log_message record = message tracker
    /\ log_query record = QueryTimer.calling_function_name t
    /\ dict_get "transaction" (log_database record)
       = Some (log_bool (truthy (transaction_name (BREADCRUMB w))))
    /\ dict_get "request_status" (log_database record)
       = Some (log_str (QueryTimer.request_status t))
    /\ dict_get "exception_name" (log_database record)
       = (if truthy (QueryTimer.exception_name t)
          then Some (log_str (QueryTimer.exception_name t)) else None).
Proof.
  intros Hdb. cbv zeta. revert Hdb.
  unfold timer_has_database, log_query_timing. intros Hdb.
  destruct (QueryTimer.database (timers w !!! timer)) as [db |];
    [| discriminate].
  rewrite Hdb. cbn [negb]. eexists. split; [reflexivity |].
  cbn [log_message log_query log_database].
  destruct (truthy (QueryTimer.exception_name (timers w !!! timer)));
    repeat split.
Qed.

Lemma log_query_record_witness :
  exists record,
    log_query_timing sample_manager 0
      (snd (TransactionTimingManager.start sample_manager 0 sample_frame
              sample_back (sample_world idle_transaction)))
    = Some record
    /\ dict_get "transaction" (log_database record) = Some (log_bool true).
Proof.
  destruct (log_query_record sample_manager 0
              (snd (TransactionTimingManager.start sample_manager 0
                      sample_frame sample_back
                      (sample_world idle_transaction))) eq_refl)
    as (record & Hlog & _ & _ & Htransaction & _).
  exists record. split; [exact Hlog | exact Htransaction].
Defined.

(** ** Starting, and the wrappers *)

Section MorePhases.

Import TransactionTimingManager.

Variable self : QueryTimingManager.

Lemma start_allocates obj f back w :
  length (timers (snd (start self obj f back w))) = S (length (timers w))
  /\ length (stacks (snd (start self obj f back w))) = S (length (stacks w)).
Proof.
  unfold start, ExitStack.__init__, _start_tracker, enter_breadcrumb,
    ExitStack.push, perf_counter, assign_stack, assign_tracker.
  cbn. rewrite !length_insert, !length_app. cbn. split; lia.
Qed.

Lemma commit_returns obj w :
  is_TrackedTransaction (objects w !!! obj) = true ->
  fst (commit self obj w) = Returned tt.
Proof.
  unfold is_TrackedTransaction. rewrite andb_true_iff, !bool_decide_eq_true.
  intros [[tracker Htracker] [stack Hstack]].
  unfold commit, bind, get_tracker, get_stack. rewrite Htracker.
  destruct tracker as [tracker |].
  - pose proof (exit_tracker_frame self tracker "commit" w)
      as (Hret & _ & Hobjects & _).
    destruct (_exit_tracker self tracker "commit" w) as [r w'].
    cbn [fst snd] in *. subst r. rewrite Hobjects, Hstack.
    destruct stack as [stack |]; [| reflexivity].
    unfold ExitStack.__exit__. destruct (ExitStack.unwind _ _ _ _ _ _ _).
    reflexivity.
  - unfold ret. rewrite Hstack.
    destruct stack as [stack |]; [| reflexivity].
    unfold ExitStack.__exit__. destruct (ExitStack.unwind _ _ _ _ _ _ _).
    reflexivity.
Qed.

Lemma rollback_returns exc_type exc_value traceback obj w :
  is_TrackedTransaction (objects w !!! obj) = true ->
  fst (rollback self exc_type exc_value traceback obj w) = Returned tt.
Proof.
  unfold is_TrackedTransaction. rewrite andb_true_iff, !bool_decide_eq_true.
  intros [[tracker Htracker] [stack Hstack]].
  unfold rollback, bind, get_tracker, get_stack. rewrite Htracker.
  destruct tracker as [tracker |].
  - pose proof (exit_tracker_frame self tracker "rollback" w)
      as (Hret & _ & Hobjects & _).
    destruct (_exit_tracker self tracker "rollback" w) as [r w'].
    cbn [fst snd] in *. subst r. rewrite Hobjects, Hstack.
    destruct stack as [stack |]; [| reflexivity].
    unfold ExitStack.__exit__. destruct (ExitStack.unwind _ _ _ _ _ _ _).
    reflexivity.
  - unfold ret. rewrite Hstack.
    destruct stack as [stack |]; [| reflexivity].
    unfold ExitStack.__exit__. destruct (ExitStack.unwind _ _ _ _ _ _ _).
    reflexivity.
Qed.

End MorePhases.

(** X13: [start] does not look at what the entity holds: called on an
    entity that is still active, it gives the entity a new tracker and a
    new stack and leaves the stack of the first start as it was, its two
    exits never run; nothing is released. *)
Theorem restart_abandons_first_scope (self : QueryTimingManager) (obj : nat)
    (f f' : FrameType) (back back' : list FrameType) (w : World) :
  obj < length (objects w) ->
  let first := snd (TransactionTimingManager.start self obj f back w) in
  let second :=
    snd (TransactionTimingManager.start self obj f' back' first) in
  attr_tracker (objects second !!! obj) = Some (Some (S (length (timers w))))
  /\ attr_stack (objects second !!! obj) = Some (Some (S (length (stacks w))))
  /\ stacks second !!! length (stacks w)
     = [exit_of_timer (length (timers w)); exit_of_breadcrumb (BREADCRUMB w)]
  /\ releases second = releases w.
Proof.
  intros Hlt. cbv zeta.
  destruct (start_spec self obj f back w Hlt)
    as (_ & _ & _ & Hlen & Hstacks & Hevents).
  destruct (start_allocates self obj f back w) as (Htimers & Hslen).
  revert Hlen Hstacks Hevents Htimers Hslen.
  generalize (snd (TransactionTimingManager.start self obj f back w)).
  intros first Hlen Hstacks Hevents Htimers Hslen.
  assert (Hlt' : obj < length (objects first)) by (rewrite Hlen; exact Hlt).
  destruct (start_spec self obj f' back' first Hlt')
    as (_ & Htracker & Hstack & _ & Hstacks' & Hevents').
  rewrite Htimers in Htracker. rewrite Hslen in Hstack.
  revert Htracker Hstack Hstacks' Hevents'.
  generalize (snd (TransactionTimingManager.start self obj f' back' first)).
  intros second Htracker Hstack Hstacks' Hevents'.
  split; [exact Htracker | split; [exact Hstack | split]].
  - rewrite Hstacks', Hstacks.
    rewrite lookup_total_app_l by (rewrite length_app; cbn; lia).
    apply snoc_lookup_total.
  - unfold releases. rewrite Hevents', Hevents. reflexivity.
Qed.

Lemma restart_abandons_first_scope_witness :
  stacks
    (snd (TransactionTimingManager.start sample_manager 0 sample_frame
            sample_back
            (snd (TransactionTimingManager.start sample_manager 0
                    sample_frame sample_back
                    (sample_world idle_transaction)))))
    !!! 0
  = [exit_of_timer 0;
     exit_of_breadcrumb (BREADCRUMB (sample_world idle_transaction))].
Proof.
  refine (proj1 (proj2 (proj2
    (restart_abandons_first_scope sample_manager 0 sample_frame sample_frame
       sample_back sample_back (sample_world idle_transaction) _)))).
  cbn. lia.
Defined.

(** X14: for a receiver that is not a tracked transaction, the three
    wrappers are transparent as long as the wrapped operation returns:
    no phase runs, and the wrapper returns the operation's result and
    leaves the store as the operation left it. *)
Theorem wrappers_transparent_for_untracked {A} (self : QueryTimingManager)
    (func : list nat -> M A) (f : FrameType) (back : list FrameType)
    (obj : nat) (rest : list nat) (exc_args : ExcArgs) (w w' : World)
    (result : A) :
  func (obj :: rest) w = (Returned result, w') ->
  is_TrackedTransaction (objects w !!! obj) = false ->
  is_TrackedTransaction (objects w' !!! obj) = false ->
  TransactionTimingManager.track_start self func f back (obj :: rest) w
  = (Returned result, w')
  /\ TransactionTimingManager.track_commit self func (obj :: rest) w
     = (Returned result, w')
  /\ track_rollback self func (obj :: rest) exc_args w = (Returned result, w').
Proof.
  intros Hfunc Hbefore Hafter.
  unfold TransactionTimingManager.track_start,
    TransactionTimingManager.track_commit, track_rollback,
    TransactionTimingManager.first_arg, bind, ret, try_except.
  rewrite Hbefore, Hfunc, Hafter. repeat split.
Qed.

Lemma wrappers_transparent_for_untracked_witness :
  TransactionTimingManager.track_commit sample_manager
    (fun _ => ret 7%Z) [0] (sample_world untracked_object)
  = (Returned 7%Z, sample_world untracked_object).
Proof.
  refine (proj1 (proj2
    (wrappers_transparent_for_untracked sample_manager (fun _ => ret 7%Z)
       sample_frame sample_back 0 [] no_exc_args
       (sample_world untracked_object) (sample_world untracked_object) 7%Z
       _ _ _))); reflexivity.
Defined.

(** X15: a wrapper called with no receiver at all.  [track_start] raises
    [IndexError] before the wrapped operation runs and leaves the store
    untouched; [track_commit] and [track_rollback] run the operation
    first, and then raise [IndexError] in place of its result or of its
    own exception. *)
Theorem wrappers_without_receiver {A} (self : QueryTimingManager)
    (func : list nat -> M A) (f : FrameType) (back : list FrameType)
    (exc_args : ExcArgs) (w : World) :
  TransactionTimingManager.track_start self func f back [] w
  = (Raised (IndexError "tuple index out of range"), w)
  /\ TransactionTimingManager.track_commit self func [] w
     = (Raised (IndexError "tuple index out of range"), snd (func [] w))
  /\ track_rollback self func [] exc_args w
     = (Raised (IndexError "tuple index out of range"), snd (func [] w)).
Proof.
  unfold TransactionTimingManager.track_start,
    TransactionTimingManager.track_commit, track_rollback,
    TransactionTimingManager.first_arg, bind, ret, raise, try_except.
  destruct (func [] w) as [[result | e] w']; repeat split.
Qed.

(** X16: when the wrapped commit operation returns and the receiver is a
    tracked transaction, [track_commit] runs the commit phase once, on the
    store the operation left, and returns the operation's own result. *)
Theorem track_commit_passes_result_through {A} (self : QueryTimingManager)
    (func : list nat -> M A) (obj : nat) (rest : list nat) (w w' : World)
    (result : A) :
  func (obj :: rest) w = (Returned result, w') ->
  is_TrackedTransaction (objects w' !!! obj) = true ->
  TransactionTimingManager.track_commit self func (obj :: rest) w
  = (Returned result, snd (TransactionTimingManager.commit self obj w')).
Proof.
  intros Hfunc Htracked.
  pose proof (commit_returns self obj w' Htracked) as Hret.
  unfold TransactionTimingManager.track_commit,
    TransactionTimingManager.first_arg, bind, ret, try_except.
  rewrite Hfunc, Htracked.
  destruct (TransactionTimingManager.commit self obj w') as [r w''].
  cbn [fst snd] in *. subst r. reflexivity.
Qed.

Lemma track_commit_passes_result_through_witness :
  TransactionTimingManager.track_commit sample_manager
    (fun _ => ret 7%Z) [0] (sample_world idle_transaction)
  = (Returned 7%Z,
     snd (TransactionTimingManager.commit sample_manager 0
            (sample_world idle_transaction))).
Proof.
  apply (track_commit_passes_result_through sample_manager
           (fun _ => ret 7%Z) 0 [] (sample_world idle_transaction)
           (sample_world idle_transaction) 7%Z); reflexivity.
Defined.

(** X17: when the receiver is a tracked transaction, [track_start] starts
    the timing before the wrapped operation runs: the operation runs on
    the store [start] left, with the entity already holding its tracker
    and its stack, and when it returns the wrapper returns what it
    returned, the entity still active. *)
Theorem track_start_runs_operation_after_start {A}
    (self : QueryTimingManager) (func : list nat -> M A) (f : FrameType)
    (back : list FrameType) (obj : nat) (rest : list nat) (w w' : World)
    (result : A) :
  obj < length (objects w) ->
  is_TrackedTransaction (objects w !!! obj) = true ->
  let started := snd (TransactionTimingManager.start self obj f back w) in
  func (obj :: rest) started = (Returned result, w') ->
  TransactionTimingManager.track_start self func f back (obj :: rest) w
  = (Returned result, w')
  /\ attr_tracker (objects started !!! obj) = Some (Some (length (timers w)))
  /\ attr_stack (objects started !!! obj) = Some (Some (length (stacks w))).
Proof.
  intros Hlt Htracked started Hfunc.
  destruct (start_spec self obj f back w Hlt)
    as (Hret & Htracker & Hstack & _).
  fold started in Htracker, Hstack.
  split; [| split; assumption].
  unfold TransactionTimingManager.track_start,
    TransactionTimingManager.first_arg, bind, ret, try_except.
  rewrite Htracked. subst started. revert Hret Hfunc.
  destruct (TransactionTimingManager.start self obj f back w) as [r w1].
  cbn [fst snd]. intros -> ->. reflexivity.
Qed.

Lemma track_start_runs_operation_after_start_witness :
  TransactionTimingManager.track_start sample_manager (fun _ => ret 7%Z)
    sample_frame sample_back [0] (sample_world idle_transaction)
  = (Returned 7%Z,
     snd (TransactionTimingManager.start sample_manager 0 sample_frame
            sample_back (sample_world idle_transaction))).
Proof.
  refine (proj1
    (track_start_runs_operation_after_start sample_manager
       (fun _ => ret 7%Z) sample_frame sample_back 0 []
       (sample_world idle_transaction)
       (snd (TransactionTimingManager.start sample_manager 0 sample_frame
               sample_back (sample_world idle_transaction)))
       7%Z _ _ _)); [cbn; lia | reflexivity | reflexivity].
Defined.

(** X18: [track_rollback] hands the rollback phase the exception details
    it was called with, the ones left out as [None], after the wrapped
    operation has returned.  When it is called with more than three of
    them, the call of the phase is a [TypeError], which the wrapper treats
    like a failure of the rollback itself: it runs the error phase with
    the [TypeError] and raises it, and the result of the operation is
    lost. *)
Theorem track_rollback_forwards_exception_details {A}
    (self : QueryTimingManager) (func : list nat -> M A) (obj : nat)
    (rest : list nat) (w w' : World) (result : A)
    (exc_type : option PyClass) (exc_value : option PyExc)
    (traceback : option Traceback) (more : nat) :
  func (obj :: rest) w = (Returned result, w') ->
  is_TrackedTransaction (objects w' !!! obj) = true ->
  track_rollback self func (obj :: rest)
    (exc_args3 exc_type exc_value traceback) w
  = (Returned result,
     snd (TransactionTimingManager.rollback self exc_type exc_value traceback
            obj w'))
  /\ track_rollback self func (obj :: rest) no_exc_args w
     = (Returned result,
        snd (TransactionTimingManager.rollback self None None None obj w'))
  /\ track_rollback self func (obj :: rest) (exc_args_over more) w
     = (Raised (TypeError "rollback() takes from 1 to 4 positional arguments"),
        snd (TransactionTimingManager.error self
               (Some (builtin_exception "TypeError"))
               (Some (TypeError
                        "rollback() takes from 1 to 4 positional arguments"))
               (Some []) obj w')).
Proof.
  intros Hfunc Htracked.
  pose proof (rollback_returns self exc_type exc_value traceback obj w'
                Htracked) as Hret3.
  pose proof (rollback_returns self None None None obj w' Htracked) as Hret0.
  unfold track_rollback, TransactionTimingManager.first_arg, bind, ret,
    try_except.
  rewrite Hfunc, Htracked. cbn [call_rollback].
  split; [| split].
  - destruct (TransactionTimingManager.rollback self exc_type exc_value
                traceback obj w') as [r w''].
    cbn [fst snd] in *. subst r. reflexivity.
  - destruct (TransactionTimingManager.rollback self None None None obj w')
      as [r w''].
    cbn [fst snd] in *. subst r. reflexivity.
  - unfold raise.
    apply (route_to_error_tracked self obj
             (TypeError "rollback() takes from 1 to 4 positional arguments")
             w' Htracked).
Qed.

Lemma track_rollback_forwards_exception_details_witness :
  fst (track_rollback sample_manager (fun _ => ret 7%Z) [0]
         (exc_args_over 1) (sample_world idle_transaction))
  = Raised (TypeError "rollback() takes from 1 to 4 positional arguments").
Proof.
  rewrite (proj2 (proj2
    (track_rollback_forwards_exception_details sample_manager
       (fun _ => ret 7%Z) 0 [] (sample_world idle_transaction)
       (sample_world idle_transaction) 7%Z None None None 1 eq_refl
       eq_refl))).
  reflexivity.
Defined.

(** ** The producer: polling, stopping, resolving *)

Section Polling.

Import KafkaMessageProducer KafkaPolling.

Lemma poll_keeps_flag ready self : _cancelled (poll ready self) = _cancelled self.
Proof. reflexivity. Qed.

Lemma poll_loop_cancelled rounds self :
  _cancelled self = true -> _poll_loop rounds self = (true, self).
Proof. intros H. destruct rounds; cbn; rewrite H; reflexivity. Qed.

Lemma poll_loop_without_stop rounds : forall self,
  _cancelled self = false ->
  Forall (fun round => stop_called round = false) rounds ->
  _poll_loop rounds self = (false, polls rounds self).
Proof.
  induction rounds as [| round rounds IH]; intros self Hflag Hall; cbn;
    rewrite Hflag; [reflexivity |].
  inversion Hall as [| ? ? Hround Hrest]; subst.
  rewrite Hround. apply IH; [exact Hflag | exact Hrest].
Qed.

Lemma ack_schedules result err msg loop :
  ack result err msg loop
  = call_soon_threadsafe
      (match err with
       | Some err => set_exception result (mkKafkaException err)
       | None => set_result result msg
       end) loop.
Proof. destruct err; reflexivity. Qed.

Lemma run_handle_resolves result err msg loop :
  futures loop !! result = Some pending ->
  run_handle
    (match err with
     | Some err => set_exception result (mkKafkaException err)
     | None => set_result result msg
     end) loop
  = Some {| futures := <[result := resolution err msg]> (futures loop);
            _ready := _ready loop |}.
Proof.
  intros Hpending. destruct err; unfold run_handle; rewrite Hpending;
    reflexivity.
Qed.

Lemma run_handle_resolved result err msg loop state :
  futures loop !! result = Some state ->
  state <> pending ->
  run_handle
    (match err with
     | Some err => set_exception result (mkKafkaException err)
     | None => set_result result msg
     end) loop
  = None.
Proof.
  intros Hstate Hnot. destruct err; unfold run_handle; rewrite Hstate;
    destruct state; congruence.
Qed.

Lemma resolution_not_pending err msg : resolution err msg <> pending.
Proof. destruct err; discriminate. Qed.

End Polling.

(** X19: the polling loop, run against what the other threads do while it
    polls.  As long as no round sees a [stop()], it keeps polling.  The
    round during which [stop()] is called is the last one polled: the
    loop ends right after it, and the reports that become ready in later
    rounds are never handed to their callbacks. *)
Theorem poll_loop_ends_after_stop_round (self : KafkaMessageProducer.t)
    (before after : list KafkaPolling.PollRound)
    (round : KafkaPolling.PollRound) :
  KafkaMessageProducer._cancelled self = false ->
  Forall (fun r => KafkaPolling.stop_called r = false) before ->
  KafkaPolling.stop_called round = true ->
  KafkaPolling._poll_loop before self
  = (false, KafkaPolling.polls before self)
  /\ KafkaPolling._poll_loop (before ++ round :: after) self
     = (true,
        KafkaPolling.stop
          (KafkaPolling.poll (KafkaPolling.arrived round)
             (KafkaPolling.polls before self))).
Proof.
  intros Hflag Hbefore Hround.
  split; [apply poll_loop_without_stop; assumption |].
  revert self Hflag.
  induction before as [| r before IH]; intros self Hflag; cbn.
  - rewrite Hflag, Hround. apply poll_loop_cancelled. reflexivity.
  - inversion Hbefore as [| ? ? Hr Hrest]; subst.
    rewrite Hflag, Hr. apply IH; [exact Hrest | exact Hflag].
Qed.

Lemma poll_loop_ends_after_stop_round_witness :
  KafkaPolling._poll_loop
    ([{| KafkaPolling.arrived := []; KafkaPolling.stop_called := false |}]
       ++ {| KafkaPolling.arrived := []; KafkaPolling.stop_called := true |}
       :: [{| KafkaPolling.arrived :=
                [{| KafkaPolling.report_callback := 0;
                    KafkaPolling.report_err := None;
                    KafkaPolling.report_msg := None |}];
              KafkaPolling.stop_called := false |}])
    (KafkaPolling.__init__
       {| KafkaMessageProducer.futures := [KafkaMessageProducer.pending];
          KafkaMessageProducer._ready := [] |})
  = (true,
     KafkaPolling.stop
       (KafkaPolling.__init__
          {| KafkaMessageProducer.futures := [KafkaMessageProducer.pending];
             KafkaMessageProducer._ready := [] |})).
Proof.
  refine (proj2
    (poll_loop_ends_after_stop_round
       (KafkaPolling.__init__
          {| KafkaMessageProducer.futures := [KafkaMessageProducer.pending];
             KafkaMessageProducer._ready := [] |})
       [{| KafkaPolling.arrived := []; KafkaPolling.stop_called := false |}]
       [{| KafkaPolling.arrived :=
             [{| KafkaPolling.report_callback := 0;
                 KafkaPolling.report_err := None;
                 KafkaPolling.report_msg := None |}];
           KafkaPolling.stop_called := false |}]
       {| KafkaPolling.arrived := []; KafkaPolling.stop_called := true |}
       _ _ _)).
  - reflexivity.
  - repeat constructor.
  - reflexivity.
Defined.

(** X20: [produce] does not look at the stop flag.  After [stop()] it
    still returns a new pending future and hands the message, with that
    future's callback, to the client; but the polling loop of a stopped
    producer ends without polling, whatever reports are ready, so nothing
    is ever scheduled for that future. *)
Theorem produce_after_stop_is_never_resolved (self : KafkaMessageProducer.t)
    (topic value : string) (rounds : list KafkaPolling.PollRound) :
  let stopped := KafkaPolling.stop self in
  let result := fst (KafkaMessageProducer.produce stopped topic value) in
  let after := snd (KafkaMessageProducer.produce stopped topic value) in
  result = fst (KafkaMessageProducer.produce self topic value)
  /\ KafkaMessageProducer.futures (KafkaMessageProducer._loop after) !! result
     = Some KafkaMessageProducer.pending
  /\ KafkaMessageProducer._producer after
     = KafkaMessageProducer._producer self
       ++ [{| KafkaMessageProducer.topic := topic;
              KafkaMessageProducer.value := value;
              KafkaMessageProducer.on_delivery := result |}]
  /\ KafkaPolling._poll_loop rounds after = (true, after).
Proof.
  cbv zeta. unfold KafkaMessageProducer.produce, KafkaPolling.stop.
  cbn. repeat split.
  - apply list_lookup_middle. reflexivity.
  - destruct rounds; reflexivity.
Qed.

(** X21: a future is resolved by the first call the loop makes for it.
    When the delivery callback of a pending future is called twice before
    the loop runs, both calls are scheduled, but the loop resolves the
    future as the first one says; the second one raises
    [InvalidStateError] in the loop and changes nothing. *)
Theorem first_delivery_report_wins (loop : KafkaMessageProducer.EventLoop)
    (result : nat) (err1 err2 : option KafkaMessageProducer.KafkaError)
    (msg1 msg2 : option KafkaMessageProducer.Message) :
  KafkaMessageProducer.futures loop !! result
  = Some KafkaMessageProducer.pending ->
  KafkaMessageProducer._ready loop = [] ->
  let scheduled :=
    KafkaMessageProducer.ack result err2 msg2
      (KafkaMessageProducer.ack result err1 msg1 loop) in
  length (KafkaMessageProducer._ready scheduled) = 2
  /\ KafkaMessageProducer.futures (KafkaPolling.run_ready scheduled)
     = <[result := KafkaPolling.resolution err1 msg1]>
         (KafkaMessageProducer.futures loop)
  /\ KafkaMessageProducer._ready (KafkaPolling.run_ready scheduled) = [].
Proof.
  intros Hpending Hready scheduled. subst scheduled.
  rewrite !ack_schedules.
  unfold KafkaPolling.run_ready, KafkaMessageProducer.call_soon_threadsafe.
  cbn [KafkaMessageProducer._ready KafkaMessageProducer.futures].
  rewrite Hready. cbn [app fold_left length].
  rewrite (run_handle_resolves result err1 msg1) by exact Hpending.
  cbn [default KafkaMessageProducer.futures KafkaMessageProducer._ready].
  rewrite (run_handle_resolved result err2 msg2 _
             (KafkaPolling.resolution err1 msg1)).
  - repeat split.
  - cbn. apply list_lookup_insert_eq.
    eapply lookup_lt_Some. exact Hpending.
  - apply resolution_not_pending.
Qed.

Lemma first_delivery_report_wins_witness :
  KafkaMessageProducer.futures
    (KafkaPolling.run_ready
       (KafkaMessageProducer.ack 0
          (Some {| KafkaMessageProducer.error_code := 3;
                   KafkaMessageProducer.error_str := "timed out" |}) None
          (KafkaMessageProducer.ack 0 None None
             {| KafkaMessageProducer.futures := [KafkaMessageProducer.pending];
                KafkaMessageProducer._ready := [] |})))
  = [KafkaMessageProducer.finished None].
Proof.
  refine (proj1 (proj2
    (first_delivery_report_wins
       {| KafkaMessageProducer.futures := [KafkaMessageProducer.pending];
          KafkaMessageProducer._ready := [] |}
       0 None
       (Some {| KafkaMessageProducer.error_code := 3;
                KafkaMessageProducer.error_str := "timed out" |})
       None None _ _))); reflexivity.
Defined.

(** X22: from [produce] to the resolved future.  On a loop with no call
    waiting, after [produce], one [poll] in which the client reports the
    delivery, and the loop making the calls it was asked to make, the
    returned future is fulfilled with the message when the report has no
    error and rejected with the [KafkaException] of the error when it has
    one; every future that existed before is as it was. *)
Theorem produce_poll_run_resolves (self : KafkaMessageProducer.t)
    (topic value : string)
    (err : option KafkaMessageProducer.KafkaError)
    (msg : option KafkaMessageProducer.Message) :
  KafkaMessageProducer._ready (KafkaMessageProducer._loop self) = [] ->
  let result := fst (KafkaMessageProducer.produce self topic value) in
  let polled :=
    KafkaPolling.poll
      [{| KafkaPolling.report_callback := result;
          KafkaPolling.report_err := err;
          KafkaPolling.report_msg := msg |}]
      (snd (KafkaMessageProducer.produce self topic value)) in
  let loop := KafkaPolling.run_ready (KafkaMessageProducer._loop polled) in
  KafkaMessageProducer.futures loop
  = KafkaMessageProducer.futures (KafkaMessageProducer._loop self)
    ++ [KafkaPolling.resolution err msg]
  /\ KafkaMessageProducer._ready loop = []
  /\ KafkaMessageProducer.futures (KafkaMessageProducer._loop polled)
     = KafkaMessageProducer.futures (KafkaMessageProducer._loop self)
       ++ [KafkaMessageProducer.pending].
Proof.
  intros Hready. cbv zeta.
  unfold KafkaMessageProducer.produce, KafkaPolling.poll,
    KafkaMessageProducer.create_future.
  cbn [fst snd KafkaMessageProducer._loop fold_left
       KafkaPolling.report_callback KafkaPolling.report_err
       KafkaPolling.report_msg].
  rewrite ack_schedules.
  unfold KafkaPolling.run_ready, KafkaMessageProducer.call_soon_threadsafe.
  cbn [KafkaMessageProducer._ready KafkaMessageProducer.futures].
  rewrite Hready. cbn [app fold_left].
  rewrite (run_handle_resolves _ err msg)
    by (cbn; apply list_lookup_middle; reflexivity).
  cbn [default KafkaMessageProducer.futures KafkaMessageProducer._ready].
  rewrite snoc_insert. repeat split.
Qed.

Lemma produce_poll_run_resolves_witness :
  KafkaMessageProducer.futures
    (KafkaPolling.run_ready
       (KafkaMessageProducer._loop
          (KafkaPolling.poll
             [{| KafkaPolling.report_callback := 0;
                 KafkaPolling.report_err := None;
                 KafkaPolling.report_msg := None |}]
             (snd (KafkaMessageProducer.produce
                     (KafkaPolling.__init__
                        {| KafkaMessageProducer.futures := [];
                           KafkaMessageProducer._ready := [] |})
                     "t" "v")))))
  = [KafkaMessageProducer.finished None].
Proof.
  refine (proj1
    (produce_poll_run_resolves
       (KafkaPolling.__init__
          {| KafkaMessageProducer.futures := [];
             KafkaMessageProducer._ready := [] |})
       "t" "v" None None _)).
  reflexivity.
Defined.

(** ** Stopping the producer *)

Section Stopping.

Import KafkaMessageProducer KafkaPolling QArith Qminmax.

Lemma join_within_three_seconds thread : (KafkaStopping.join 3 thread <= 3)%Q.
Proof.
  destruct thread as [| [ends_in |]]; cbn.
  - unfold Qle. cbn. lia.
  - apply Q.le_min_r.
  - apply Qle_refl.
Qed.

Lemma poll_loop_last_round before : forall self round after,
  _cancelled self = false ->
  Forall (fun r => stop_called r = false) before ->
  stop_called round = true ->
  _poll_loop (before ++ round :: after) self
  = (true, KafkaPolling.stop (poll (arrived round) (polls before self))).
Proof.
  induction before as [| r before IH]; intros self round after Hflag Hall Hround;
    cbn.
  - rewrite Hflag, Hround. apply poll_loop_cancelled. reflexivity.
  - inversion Hall as [| ? ? Hr Hrest]; subst.
    rewrite Hflag, Hr. apply IH; [exact Hflag | exact Hrest | exact Hround].
Qed.

End Stopping.

(** C10: [stop()] sets the cancellation flag and then joins the polling
    thread with a timeout of 3 seconds, so it returns after at most 3
    seconds whether or not the thread has ended; it raises nothing, and
    when polling has already stopped (also on a second call) it returns
    without waiting.  Once the flag is set the condition of the polling
    loop is false: a loop that tests it polls no more, and a loop that is
    in a poll when [stop()] is called finishes that poll and ends, so the
    rounds that follow are never polled. *)
Theorem stop_sets_flag_and_ends_polling (self : KafkaMessageProducer.t)
    (thread : KafkaStopping.PollThread)
    (before after : list KafkaPolling.PollRound)
    (round : KafkaPolling.PollRound) :
  KafkaMessageProducer._cancelled self = false ->
  Forall (fun r => KafkaPolling.stop_called r = false) before ->
  KafkaPolling.stop_called round = true ->
  let result := KafkaStopping.stop self thread in
  let stopped := snd (fst result) in
  fst (fst result) = Returned tt
  /\ KafkaMessageProducer._cancelled stopped = true
  /\ KafkaMessageProducer._loop stopped = KafkaMessageProducer._loop self
  /\ KafkaMessageProducer._producer stopped
     = KafkaMessageProducer._producer self
  /\ QArith_base.Qle (snd result) (QArith_base.inject_Z 3)
  /\ KafkaStopping.stop self KafkaStopping.ended
     = (Returned tt, stopped, QArith_base.inject_Z 0)
  /\ KafkaStopping.stop stopped KafkaStopping.ended
     = (Returned tt, stopped, QArith_base.inject_Z 0)
  /\ (forall rounds,
        KafkaPolling._poll_loop rounds stopped = (true, stopped))
  /\ KafkaPolling._poll_loop (before ++ round :: after) self
     = (true,
        KafkaPolling.stop
          (KafkaPolling.poll (KafkaPolling.arrived round)
             (KafkaPolling.polls before self))).
Proof.
  intros Hflag Hbefore Hround result stopped.
  split; [reflexivity |].
  split; [reflexivity |].
  split; [reflexivity |].
  split; [reflexivity |].
  split; [apply join_within_three_seconds |].
  split; [reflexivity |].
  split; [reflexivity |].
  split.
  - intros rounds. apply poll_loop_cancelled. reflexivity.
  - apply poll_loop_last_round; assumption.
Qed.

Lemma stop_sets_flag_and_ends_polling_witness :
  KafkaPolling._poll_loop
    ([{| KafkaPolling.arrived := []; KafkaPolling.stop_called := false |}]
       ++ {| KafkaPolling.arrived := []; KafkaPolling.stop_called := true |}
       :: [{| KafkaPolling.arrived := []; KafkaPolling.stop_called := false |}])
    (KafkaPolling.__init__
       {| KafkaMessageProducer.futures := [];
          KafkaMessageProducer._ready := [] |})
  = (true,
     KafkaPolling.stop
       (KafkaPolling.__init__
          {| KafkaMessageProducer.futures := [];
             KafkaMessageProducer._ready := [] |})).
Proof.
  refine (proj2 (proj2 (proj2 (proj2 (proj2 (proj2 (proj2 (proj2
    (stop_sets_flag_and_ends_polling
       (KafkaPolling.__init__
          {| KafkaMessageProducer.futures := [];
             KafkaMessageProducer._ready := [] |})
       (KafkaStopping.running None)
       [{| KafkaPolling.arrived := []; KafkaPolling.stop_called := false |}]
       [{| KafkaPolling.arrived := []; KafkaPolling.stop_called := false |}]
       {| KafkaPolling.arrived := []; KafkaPolling.stop_called := true |}
       _ _ _))))))))).
  - reflexivity.
  - repeat constructor.
  - reflexivity.
Defined.
